(** * Overture sample-config skill scripts: analyzer.py and test-generator.py

    A shallow embedding of the two command-line utilities
      - plugins/code-quality/skills/static-analysis/analyzer.py
      - skills/testing-utils/test-generator.py
    and of the parts of the Python runtime they call (pathlib on a POSIX
    system, ast.walk, dict.get, the tokenizer and the grammar on the
    generated documents), followed by the properties of the specification
    that concern them.

    Conventions of the model:
      - a Python [str] is a [string]: a sequence of code points below 256;
      - a file system is a tree of regular files and directories (no
        symbolic links, no permissions); reading a file cannot fail once
        the path names a regular file;
      - a method of the generator is a computation on the generator object
        that returns a value or raises, and hands the object on;
      - [ast.parse] is a parameter: a text has a tree or is malformed. *)

From Stdlib Require Import String Ascii ZArith List Lia.
From stdpp Require Import base option list strings gmap.
From Equations Require Import Equations.

Set Warnings "-register-all".

Local Open Scope string_scope.
Local Open Scope list_scope.

(* ===================================================================== *)
(** * The file system and pathlib                                         *)
(* ===================================================================== *)

Module Pathlib.

(** A file-system tree.  A directory lists its entries in the order in which
    [os.scandir] enumerates them; a regular file carries its text. *)
Inductive fsnode :=
| File (content : string)
| Dir (entries : list (string * fsnode)).

(** The process sees a tree and a current working directory (the names
    leading from the root to it). *)
Record filesystem := { root : fsnode; cwd : list string }.

(** [pathlib.PurePosixPath]: an anchor (empty, one slash or two slashes)
    and the remaining components. *)
Record Path := { anchor : string; parts : list string }.

Fixpoint split_on (sep : ascii) (s : string) : list string :=
  match s with
  | EmptyString => [EmptyString]
  | String c rest =>
      if Ascii.eqb c sep then EmptyString :: split_on sep rest
      else match split_on sep rest with
           | [] => [String c EmptyString]
           | w :: ws => String c w :: ws
           end
  end.

Definition is_component (s : string) : bool :=
  negb (String.eqb s "") && negb (String.eqb s ".").

(** POSIX keeps exactly two leading slashes apart from one or three. *)
Definition parse_anchor (s : string) : string :=
  match s with
  | String "/" (String "/" (String "/" _)) => "/"
  | String "/" (String "/" _) => "//"
  | String "/" _ => "/"
  | _ => ""
  end.

(** [Path(s)]: empty components and single dots are dropped, double dots
    are kept. *)
Definition Path_of (s : string) : Path :=
  {| anchor := parse_anchor s;
     parts := List.filter is_component (split_on "/" s) |}.

Fixpoint join (sep : string) (l : list string) : string :=
  match l with
  | [] => ""
  | [x] => x
  | x :: rest => x +:+ sep +:+ join sep rest
  end.

(** [str(p)] *)
Definition str (p : Path) : string :=
  match anchor p, parts p with
  | "", [] => "."
  | a, ps => a +:+ join "/" ps
  end.

(** [p.name]: the final component, empty for a bare anchor or [Path(".")]. *)
Definition name (p : Path) : string := List.last (parts p) "".

(** [p / rel] for relative components [rel]. *)
Definition joinpath (p : Path) (rel : list string) : Path :=
  {| anchor := anchor p; parts := parts p ++ rel |}.

Fixpoint lookup_entry (n : string) (entries : list (string * fsnode))
  : option fsnode :=
  match entries with
  | [] => None
  | (m, child) :: rest =>
      if String.eqb n m then Some child else lookup_entry n rest
  end.

(** Path resolution from a directory [cur] whose ancestors are [up]
    (nearest first).  A component below a regular file does not resolve. *)
Fixpoint walk_parts (up : list fsnode) (cur : fsnode) (ps : list string)
  : option fsnode :=
  match ps with
  | [] => Some cur
  | p :: ps' =>
      match cur with
      | File _ => None
      | Dir entries =>
          if String.eqb p ".." then
            match up with
            | [] => walk_parts [] cur ps'
            | parent :: up' => walk_parts up' parent ps'
            end
          else
            match lookup_entry p entries with
            | Some child => walk_parts (cur :: up) child ps'
            | None => None
            end
      end
  end.

Definition has_nul (s : string) : bool :=
  existsb (Ascii.eqb "000") (list_ascii_of_string s).

(** What a path names, if anything.  A relative path starts from the
    working directory; a path with an embedded NUL character names nothing
    (the system calls refuse it). *)
Definition resolve (fs : filesystem) (p : Path) : option fsnode :=
  if existsb has_nul (parts p) then None
  else
    walk_parts [] (root fs)
      (if String.eqb (anchor p) "" then cwd fs ++ parts p else parts p).

Definition is_file (fs : filesystem) (p : Path) : bool :=
  match resolve fs p with Some (File _) => true | _ => false end.

Definition is_dir (fs : filesystem) (p : Path) : bool :=
  match resolve fs p with Some (Dir _) => true | _ => false end.

(** [fnmatch] for one path component: [*] matches any run of characters,
    [?] any one character, every other character itself. *)
Fixpoint fnmatch (pat nm : string) : bool :=
  match pat with
  | EmptyString => match nm with EmptyString => true | _ => false end
  | String "*" pat' =>
      (fix star (nm : string) : bool :=
         fnmatch pat' nm
         || match nm with
            | EmptyString => false
            | String _ nm' => star nm'
            end) nm
  | String "?" pat' =>
      match nm with
      | EmptyString => false
      | String _ nm' => fnmatch pat' nm'
      end
  | String c pat' =>
      match nm with
      | EmptyString => false
      | String d nm' => Ascii.eqb c d && fnmatch pat' nm'
      end
  end.

Definition matching_names (pat : string) (prefix : list string)
    (entries : list (string * fsnode)) : list (list string) :=
  omap (fun e => if fnmatch pat (fst e) then Some (prefix ++ [fst e]) else None)
       entries.

(** The selector behind [rglob(pat)] for a one-component pattern: the
    directories below the start are visited in pre-order, and in each one
    every entry whose name matches is yielded, whatever its kind. *)
Fixpoint select_from (pat : string) (prefix : list string) (n : fsnode)
  : list (list string) :=
  match n with
  | File _ => []
  | Dir entries =>
      matching_names pat prefix entries
      ++ List.flat_map
           (fun e => select_from pat (prefix ++ [fst e]) (snd e)) entries
  end.

(** [p.rglob(pat)] *)
Definition rglob (fs : filesystem) (p : Path) (pat : string) : list Path :=
  match resolve fs p with
  | Some n => joinpath p <$> select_from pat [] n
  | None => []
  end.

(** [open(p).read()]: the text of a regular file; nothing where [open]
    raises. *)
Definition read_text (fs : filesystem) (p : Path) : option string :=
  match resolve fs p with Some (File s) => Some s | _ => None end.

End Pathlib.

(* ===================================================================== *)
(** * analyzer.py                                                         *)
(* ===================================================================== *)

Module Analyzer.
Import Pathlib.

Record AnalysisRecord := {
  file : string;
  lines_of_code : Z;
  cyclomatic_complexity : Z;
  issues : list string
}.

Definition analyze_file (filepath : string) : AnalysisRecord :=
  {| file := filepath;
     lines_of_code := 0;
     cyclomatic_complexity := 0;
     issues := [] |}.

(** What [print] receives: a line of text, or the [json.dumps(results,
    indent=2)] serialisation, kept as the value that is serialised. *)
Inductive printed :=
| Text (s : string)
| Json (results : list AnalysisRecord).

Inductive exit_status := Exit (code : Z).

(** Lines 29-36 of [main]: the records collected for a target. *)
Definition analyze (fs : filesystem) (target : Path) : list AnalysisRecord :=
  let results := [] in
  if is_file fs target then
    results ++ [analyze_file (str target)]
  else if is_dir fs target then
    fold_left (fun results file => results ++ [analyze_file (str file)])
              (rglob fs target "*.py") results
  else results.

Definition main (fs : filesystem) (argv : list string)
  : list printed * exit_status :=
  match argv with
  | _ :: arg :: _ =>
      let target := Path_of arg in
      let results := analyze fs target in
      ([Json results], Exit 0)
  | _ => ([Text "Usage: analyzer.py <file_or_directory>"], Exit 1)
  end.

(** The files under a directory that match the source-file naming pattern,
    in the words of the specification: the regular files, at any depth,
    whose name matches. *)
Fixpoint spec_matching_files (pat : string) (n : fsnode) : nat :=
  match n with
  | File _ => 0
  | Dir entries =>
      list_sum
        (List.map
           (fun e =>
              (match snd e with
               | File _ => if fnmatch pat (fst e) then 1 else 0
               | Dir _ => 0
               end)
              + spec_matching_files pat (snd e))
           entries)
  end.

(** The directories, at any depth, whose name matches. *)
Fixpoint matching_dirs (pat : string) (n : fsnode) : nat :=
  match n with
  | File _ => 0
  | Dir entries =>
      list_sum
        (List.map
           (fun e =>
              (match snd e with
               | File _ => 0
               | Dir _ => if fnmatch pat (fst e) then 1 else 0
               end)
              + matching_dirs pat (snd e))
           entries)
  end.

End Analyzer.

(* ===================================================================== *)
(** * The syntax tree and ast.walk                                        *)
(* ===================================================================== *)

Module Ast.

(** The node classes the generator tells apart, with the attributes it
    reads: [name], the names of the positional parameters ([args.args]) and
    [lineno].  [async def] has a class of its own, which is not a subclass
    of [ast.FunctionDef]. *)
Inductive node_class :=
| ast_Module
| ast_FunctionDef (name : string) (args : list string) (lineno : Z)
| ast_AsyncFunctionDef (name : string) (args : list string) (lineno : Z)
| ast_ClassDef (name : string)
| ast_Other.

(** A node with its child nodes in the order of [ast.iter_child_nodes]. *)
Inductive node := Node (cls : node_class) (children : list node).

Definition class_of (n : node) : node_class :=
  match n with Node c _ => c end.

Definition iter_child_nodes (n : node) : list node :=
  match n with Node _ cs => cs end.

Fixpoint node_size (n : node) : nat :=
  match n with
  | Node _ cs => S (list_sum (List.map node_size cs))
  end.

Definition forest_size (l : list node) : nat :=
  list_sum (List.map node_size l).

(** [ast.walk]: the queue loop
      todo = deque([node])
      while todo:
          node = todo.popleft()
          todo.extend(iter_child_nodes(node))
          yield node *)
Equations? walk_queue (todo : list node) : list node
  by wf (forest_size todo) lt :=
  walk_queue [] := [];
  walk_queue (n :: rest) := n :: walk_queue (rest ++ iter_child_nodes n).
Proof.
  unfold forest_size. rewrite List.map_app, list_sum_app.
  destruct n as [c cs]. simpl. lia.
Qed.

Definition walk (n : node) : list node := walk_queue [n].

End Ast.

(* ===================================================================== *)
(** * test-generator.py                                                   *)
(* ===================================================================== *)

Module TestGen.
Import Pathlib Ast.

(** Python values as far as a configuration mapping holds them. *)
Inductive pyval :=
| PyNone
| PyBool (b : bool)
| PyInt (z : Z)
| PyStr (s : string)
| PyDict (d : gmap string pyval).

(** Truth value testing of [if v:]. *)
Definition truthy (v : pyval) : bool :=
  match v with
  | PyNone => false
  | PyBool b => b
  | PyInt z => negb (Z.eqb z 0)
  | PyStr s => negb (String.eqb s "")
  | PyDict d => negb (Nat.eqb (size d) 0)
  end.

Inductive exn := SyntaxError | AttributeError | OSError.

Inductive result (A : Type) :=
| Ok (a : A)
| Raise (e : exn).
Arguments Ok {A} a.
Arguments Raise {A} e.

(** The generator object: its one attribute is the configuration mapping it
    was constructed with ([__init__]). *)
Record TestGenerator := { config : pyval }.

Definition __init__ (config : pyval) : TestGenerator := {| config := config |}.

(** Methods run on [self], may raise, and hand [self] on. *)
Definition M (A : Type) : Type := TestGenerator -> result A * TestGenerator.

Definition ret {A} (a : A) : M A := fun self => (Ok a, self).

Definition bind {A B} (m : M A) (k : A -> M B) : M B :=
  fun self =>
    match m self with
    | (Ok a, self') => k a self'
    | (Raise e, self') => (Raise e, self')
    end.

Definition raise {A} (e : exn) : M A := fun self => (Raise e, self).

(** [self.config] *)
Definition self_config : M pyval := fun self => (Ok (config self), self).

Notation "'let*' x ':=' m 'in' k" := (bind m (fun x => k))
  (at level 10, x name, m at level 100, k at level 200).

(** [d.get(key, default)]; only a mapping has the method. *)
Definition dict_get (d : pyval) (key : string) (dflt : pyval) : M pyval :=
  match d with
  | PyDict m => ret (default dflt (m !! key))
  | _ => raise AttributeError
  end.

(** [for x in l: acc = body(acc, x)] *)
Fixpoint for_each {A B} (l : list A) (body : B -> A -> M B) (acc : B) : M B :=
  match l with
  | [] => ret acc
  | x :: l' => let* acc' := body acc x in for_each l' body acc'
  end.

(** A function definition node, as [isinstance(node, ast.FunctionDef)]
    selects it. *)
Record FunctionDef := {
  name : string;
  args : list string;
  lineno : Z
}.

Definition as_FunctionDef (n : node) : option FunctionDef :=
  match class_of n with
  | ast_FunctionDef f a l => Some {| name := f; args := a; lineno := l |}
  | _ => None
  end.

Record TestCase := { tc_name : string; tc_description : string }.

Record FunctionMetadata := {
  md_name : string;
  md_args : list string;
  md_line_number : Z;
  md_test_cases : list TestCase
}.

Definition _generate_test_cases (func_node : FunctionDef) : M (list TestCase) :=
  let test_cases := [] in
  let test_cases :=
    test_cases ++ [ {| tc_name := "test_" +:+ name func_node +:+ "_basic";
                       tc_description := "Basic functionality test" |} ] in
  let* cfg := self_config in
  let* generation := dict_get cfg "generation" (PyDict ∅) in
  let* edge := dict_get generation "include_edge_cases" PyNone in
  let test_cases :=
    if truthy edge then
      test_cases ++ [ {| tc_name := "test_" +:+ name func_node +:+ "_edge_cases";
                         tc_description := "Edge case handling" |} ]
    else test_cases in
  let* cfg := self_config in
  let* generation := dict_get cfg "generation" (PyDict ∅) in
  let* error := dict_get generation "include_error_cases" PyNone in
  let test_cases :=
    if truthy error then
      test_cases ++ [ {| tc_name := "test_" +:+ name func_node +:+ "_error_handling";
                         tc_description := "Error handling test" |} ]
    else test_cases in
  ret test_cases.

Definition analyze_function (func_node : FunctionDef) : M FunctionMetadata :=
  let* test_cases := _generate_test_cases func_node in
  ret {| md_name := name func_node;
         md_args := args func_node;
         md_line_number := lineno func_node;
         md_test_cases := test_cases |}.

Definition nl : string := String "010" "".
Definition quotes3 : string := String "034" (String "034" (String "034" "")).

(** The f-string of line 62: three double quotes, [Tests for ], the name of
    the source file, three double quotes, two newlines. *)
Definition header (source_path : Path) : string :=
  quotes3 +:+ "Tests for " +:+ Pathlib.name source_path +:+ quotes3 +:+ nl +:+ nl.

Definition import_line : string := "import pytest" +:+ nl +:+ nl.

(** The four lines appended for one test case. *)
Definition emit_test_case (test_content : string) (test_case : TestCase)
  : string :=
  let test_content :=
    test_content +:+ ("def " +:+ tc_name test_case +:+ "():" +:+ nl) in
  let test_content :=
    test_content
    +:+ ("    " +:+ quotes3 +:+ tc_description test_case +:+ quotes3 +:+ nl) in
  let test_content := test_content +:+ ("    # TODO: Implement test" +:+ nl) in
  let test_content := test_content +:+ ("    pass" +:+ nl +:+ nl) in
  test_content.

Section Environment.

(** The file system the process runs on and [ast.parse], which yields the
    tree of a well-formed source text and nothing for a malformed one.
    Whatever keeps [open] from delivering the text is raised as OSError,
    a malformed text as SyntaxError. *)
Variable fs : filesystem.
Variable ast_parse : string -> option node.

Definition generate_test_file (source_path : Path) : M string :=
  let* source :=
    match read_text fs source_path with
    | Some s => ret s
    | None => raise OSError
    end in
  let* tree :=
    match ast_parse source with
    | Some t => ret t
    | None => raise SyntaxError
    end in
  let functions := omap as_FunctionDef (walk tree) in
  let test_content := header source_path in
  let test_content := test_content +:+ import_line in
  let* test_content :=
    for_each functions
      (fun test_content func =>
         if negb (String.prefix "_" (name func)) then
           let* metadata := analyze_function func in
           for_each (md_test_cases metadata)
             (fun test_content test_case =>
                ret (emit_test_case test_content test_case))
             test_content
         else ret test_content)
      test_content in
  ret test_content.

(** How the process ends: [sys.exit(code)] or falling off [main] (code 0),
    or an exception nobody catches. *)
Inductive outcome :=
| Exited (code : Z)
| Uncaught (e : exn).

Definition main_config : pyval :=
  PyDict {[ "generation" :=
              PyDict (<[ "include_edge_cases" := PyBool true ]>
                        {[ "include_error_cases" := PyBool true ]}) ]}.

(** [main]: what is printed to standard output, and how the run ends. *)
Definition main (argv : list string) : list string * outcome :=
  match argv with
  | _ :: arg :: _ =>
      let source_path := Path_of arg in
      let config := main_config in
      let generator := __init__ config in
      match generate_test_file source_path generator with
      | (Ok test_content, _) => ([test_content], Exited 0)
      | (Raise e, _) => ([], Uncaught e)
      end
  | _ => (["Usage: test-generator.py <source_file>"], Exited 1)
  end.

End Environment.

End TestGen.

(* ===================================================================== *)
(** * Vocabulary of the specification                                     *)
(* ===================================================================== *)

Module GenSpec.
Import Pathlib Ast TestGen.

(** Every node of a tree, a node before its children (structural descent,
    independent of the queue of [walk]). *)
Fixpoint subnodes (n : node) : list node :=
  match n with
  | Node _ cs => n :: List.flat_map subnodes cs
  end.

(** The function definitions a tree contains. *)
Definition function_defs (tree : node) : list FunctionDef :=
  omap as_FunctionDef (subnodes tree).

(** The function definitions in discovery order, as [generate_test_file]
    collects them. *)
Definition discovered (tree : node) : list FunctionDef :=
  omap as_FunctionDef (walk tree).

Definition is_private (f : FunctionDef) : bool := String.prefix "_" (name f).
Definition is_public (f : FunctionDef) : bool := negb (is_private f).

Definition public_functions (l : list FunctionDef) : list FunctionDef :=
  List.filter is_public l.

Definition basic_case (f : string) : TestCase :=
  {| tc_name := "test_" +:+ f +:+ "_basic";
     tc_description := "Basic functionality test" |}.

Definition edge_case (f : string) : TestCase :=
  {| tc_name := "test_" +:+ f +:+ "_edge_cases";
     tc_description := "Edge case handling" |}.

Definition error_case (f : string) : TestCase :=
  {| tc_name := "test_" +:+ f +:+ "_error_handling";
     tc_description := "Error handling test" |}.

Definition suffixes : list string := ["_basic"; "_edge_cases"; "_error_handling"].

(** The test-case derivation policy of the specification, in its order. *)
Definition derived_cases (edge error : bool) (f : FunctionDef) : list TestCase :=
  [basic_case (name f)]
  ++ (if edge then [edge_case (name f)] else [])
  ++ (if error then [error_case (name f)] else []).

(** One empty test function, as text. *)
Definition stub (tc : TestCase) : string :=
  "def " +:+ tc_name tc +:+ "():" +:+ nl
  +:+ "    " +:+ quotes3 +:+ tc_description tc +:+ quotes3 +:+ nl
  +:+ "    # TODO: Implement test" +:+ nl
  +:+ "    pass" +:+ nl +:+ nl.

Fixpoint stubs (l : list TestCase) : string :=
  match l with
  | [] => ""
  | tc :: l' => stub tc +:+ stubs l'
  end.

(** A generation section that is absent or a mapping. *)
Definition generation_section (cfg : pyval) : option (gmap string pyval) :=
  match cfg with
  | PyDict m =>
      match m !! "generation" with
      | None => Some ∅
      | Some (PyDict d) => Some d
      | Some _ => None
      end
  | _ => None
  end.

Definition flag_of (d : gmap string pyval) (key : string) : bool :=
  truthy (default PyNone (d !! key)).

(** Both flags of the generation section are [True]. *)
Definition both_flags_true (cfg : pyval) : Prop :=
  exists d, generation_section cfg = Some d
            /\ d !! "include_edge_cases" = Some (PyBool true)
            /\ d !! "include_error_cases" = Some (PyBool true).

(** The loop of [generate_test_file] over the discovered functions. *)
Definition function_loop (functions : list FunctionDef) (acc : string) : M string :=
  for_each functions
    (fun test_content func =>
       if negb (String.prefix "_" (name func)) then
         let* metadata := analyze_function func in
         for_each (md_test_cases metadata)
           (fun test_content test_case =>
              ret (emit_test_case test_content test_case))
           test_content
       else ret test_content)
    acc.

(** A computation that hands on the generator object it received. *)
Definition preserves_self {A : Type} (m : M A) : Prop :=
  forall self : TestGenerator, snd (m self) = self.

End GenSpec.

(* ===================================================================== *)
(** * The syntax of generated documents                                   *)
(* ===================================================================== *)

(** The part of Python's tokenizer and grammar that the documents of
    [generate_test_file] exercise: names, the three punctuation marks of a
    parameterless [def], string literals, comments, and indentation by
    spaces.  A text is judged [Valid] or [Invalid] only where the rules
    below decide it; everything else is [Unmodelled]: tabs, continuation
    lines, numbers, operators, string prefixes, the escapes [\N], [\U] and
    octal ones, unknown escapes (accepted with a warning today), and every
    statement outside the four of [statements]. *)

Module PySyntax.

Inductive verdict := Valid | Invalid | Unmodelled.

Inductive token :=
| NAME (s : string)
| STRING
| LPAR
| RPAR
| COLON
| NEWLINE
| INDENT
| DEDENT
| ENDMARKER.

Definition quote : ascii := "034".
Definition apostrophe : ascii := "039".
Definition backslash : ascii := "092".
Definition newline : ascii := "010".
Definition nul : ascii := "000".

Definition is_letter (c : ascii) : bool :=
  (Ascii.leb "a" c && Ascii.leb c "z") || (Ascii.leb "A" c && Ascii.leb c "Z").

Definition is_digit (c : ascii) : bool := Ascii.leb "0" c && Ascii.leb c "9".

(** The code points from 128 to 255 that may start an identifier
    (XID_Start): the two ordinal indicators, the micro sign and the letters
    of Latin-1, which leave out the multiplication and the division sign. *)
Definition is_latin1_letter (c : ascii) : bool :=
  Ascii.eqb c "170" || Ascii.eqb c "181" || Ascii.eqb c "186"
  || (Ascii.leb "192" c && Ascii.leb c "214")
  || (Ascii.leb "216" c && Ascii.leb c "246")
  || Ascii.leb "248" c.

Definition is_name_start (c : ascii) : bool :=
  is_letter c || Ascii.eqb c "_" || is_latin1_letter c.

(** The characters of an identifier (XID_Continue): also the digits and the
    middle dot. *)
Definition is_name_char (c : ascii) : bool :=
  is_name_start c || is_digit c || Ascii.eqb c "183".

Definition is_hex_digit (c : ascii) : bool :=
  is_digit c
  || (Ascii.leb "a" c && Ascii.leb c "f")
  || (Ascii.leb "A" c && Ascii.leb c "F").

Definition is_quote (c : ascii) : bool :=
  Ascii.eqb c quote || Ascii.eqb c apostrophe.

(** The escapes of a string literal that need nothing after them. *)
Definition is_simple_escape (c : ascii) : bool :=
  Ascii.eqb c backslash || is_quote c || Ascii.eqb c newline
  || existsb (Ascii.eqb c) (list_ascii_of_string "abfnrtv").

(** Where a string literal stands with respect to escapes: outside one,
    right after a backslash, or inside a [\x] or [\u] escape that still
    needs [n] hexadecimal digits. *)
Inductive escape :=
| Plain
| Escaped
| Hex (n : nat).

Inductive mode :=
| LineStart (col : nat)
| Between
| InName (acc : string)
| InComment (own_line : bool)
| Quote1 (q : ascii)
| Quote2 (q : ascii)
| InStr1 (q : ascii) (e : escape)
| InStr3 (q : ascii) (e : escape) (closing : nat)
| Stopped (v : verdict).

(** The tokenizer: its mode, the stack of open indentation levels, the
    tokens produced so far (latest first) and the nesting of parentheses. *)
Record lexer := {
  lx_mode : mode;
  indents : list nat;
  tokens : list token;
  depth : nat
}.

Definition set_mode (m : mode) (st : lexer) : lexer :=
  {| lx_mode := m; indents := indents st; tokens := tokens st;
     depth := depth st |}.

Definition emit (t : token) (m : mode) (st : lexer) : lexer :=
  {| lx_mode := m; indents := indents st; tokens := t :: tokens st;
     depth := depth st |}.

Definition stop (v : verdict) (st : lexer) : lexer := set_mode (Stopped v) st.

(** The end of a logical line; inside parentheses it is not modelled. *)
Definition end_line (st : lexer) : lexer :=
  match depth st with
  | 0 => emit NEWLINE (LineStart 0) st
  | S _ => stop Unmodelled st
  end.

(** Leaving blocks until the indentation [col] is met: one DEDENT per level
    left; a level that was never opened is an IndentationError. *)
Fixpoint dedent (col : nat) (stack : list nat) (toks : list token)
  : option (list nat * list token) :=
  match stack with
  | [] => if Nat.eqb col 0 then Some ([], toks) else None
  | top :: below =>
      if Nat.eqb col top then Some (stack, toks)
      else if Nat.ltb col top then dedent col below (DEDENT :: toks)
      else None
  end.

(** The indentation of a line that holds a token.  CPython gives up at a
    hundred open levels; from there on nothing is decided here. *)
Definition indent (col : nat) (st : lexer) : lexer :=
  let top := List.hd 0 (indents st) in
  if Nat.eqb col top then st
  else if Nat.ltb top col then
    if Nat.leb 99 (length (indents st)) then stop Unmodelled st
    else
      {| lx_mode := lx_mode st; indents := col :: indents st;
         tokens := INDENT :: tokens st; depth := depth st |}
  else
    match dedent col (indents st) (tokens st) with
    | Some (stack, toks) =>
        {| lx_mode := lx_mode st; indents := stack; tokens := toks;
           depth := depth st |}
    | None => stop Invalid st
    end.

(** A character where a token may begin. *)
Definition begin_token (c : ascii) (st : lexer) : lexer :=
  match lx_mode st with
  | Stopped _ => st
  | _ =>
      if is_name_start c then set_mode (InName (String c "")) st
      else if Ascii.eqb c " " then set_mode Between st
      else if Ascii.eqb c newline then end_line st
      else if Ascii.eqb c "#" then set_mode (InComment false) st
      else if is_quote c then set_mode (Quote1 c) st
      else if Ascii.eqb c "(" then
        {| lx_mode := Between; indents := indents st;
           tokens := LPAR :: tokens st; depth := S (depth st) |}
      else if Ascii.eqb c ")" then
        match depth st with
        | 0 => stop Unmodelled st
        | S d =>
            {| lx_mode := Between; indents := indents st;
               tokens := RPAR :: tokens st; depth := d |}
        end
      else if Ascii.eqb c ":" then emit COLON Between st
      else stop Unmodelled st
  end.

(** One character inside a string literal: the next escape state, or the
    verdict that ends the scan.  [None] is an ordinary character. *)
Definition in_escape (e : escape) (c : ascii) : option (escape + verdict) :=
  match e with
  | Plain => if Ascii.eqb c backslash then Some (inl Escaped) else None
  | Escaped =>
      if is_simple_escape c then Some (inl Plain)
      else if Ascii.eqb c "x" then Some (inl (Hex 2))
      else if Ascii.eqb c "u" then Some (inl (Hex 4))
      else Some (inr Unmodelled)
  | Hex n =>
      if is_hex_digit c then
        match n with
        | 0 | 1 => Some (inl Plain)
        | S n' => Some (inl (Hex n'))
        end
      else Some (inr Invalid)
  end.

Definition step (st : lexer) (c : ascii) : lexer :=
  match lx_mode st with
  | Stopped _ => st
  | LineStart col =>
      if Ascii.eqb c " " then set_mode (LineStart (S col)) st
      else if Ascii.eqb c newline then set_mode (LineStart 0) st
      else if Ascii.eqb c "#" then set_mode (InComment true) st
      else if is_name_start c || is_quote c || Ascii.eqb c "("
              || Ascii.eqb c ")" || Ascii.eqb c ":" then
        begin_token c (indent col st)
      else stop Unmodelled st
  | Between => begin_token c st
  | InName acc =>
      if is_name_char c then set_mode (InName (acc +:+ String c "")) st
      else if is_quote c then stop Unmodelled st
      else begin_token c (emit (NAME acc) Between st)
  | InComment own_line =>
      if Ascii.eqb c nul then stop Unmodelled st
      else if Ascii.eqb c newline then
        (if own_line then set_mode (LineStart 0) st else end_line st)
      else st
  | Quote1 q =>
      if Ascii.eqb c q then set_mode (Quote2 q) st
      else if Ascii.eqb c nul then stop Unmodelled st
      else if Ascii.eqb c newline then stop Invalid st
      else if Ascii.eqb c backslash then set_mode (InStr1 q Escaped) st
      else set_mode (InStr1 q Plain) st
  | Quote2 q =>
      if Ascii.eqb c q then set_mode (InStr3 q Plain 0) st
      else begin_token c (emit STRING Between st)
  | InStr1 q e =>
      if Ascii.eqb c nul then stop Unmodelled st
      else
        match in_escape e c with
        | Some (inl e') => set_mode (InStr1 q e') st
        | Some (inr v) => stop v st
        | None =>
            if Ascii.eqb c newline then stop Invalid st
            else if Ascii.eqb c q then emit STRING Between st
            else st
        end
  | InStr3 q e closing =>
      if Ascii.eqb c nul then stop Unmodelled st
      else
        match in_escape e c with
        | Some (inl e') => set_mode (InStr3 q e' 0) st
        | Some (inr v) => stop v st
        | None =>
            if Ascii.eqb c q then
              match closing with
              | 0 => set_mode (InStr3 q Plain 1) st
              | 1 => set_mode (InStr3 q Plain 2) st
              | _ => emit STRING Between st
              end
            else set_mode (InStr3 q Plain 0) st
        end
  end.

Fixpoint lex (s : string) (st : lexer) : lexer :=
  match s with
  | EmptyString => st
  | String c s' => lex s' (step st c)
  end.

Definition start : lexer :=
  {| lx_mode := LineStart 0; indents := []; tokens := []; depth := 0 |}.

Definition closing_tokens (st : lexer) : list token :=
  List.map (fun _ => DEDENT) (indents st) ++ [ENDMARKER].

(** The end of the text: an open string literal is a SyntaxError, an
    unfinished line is ended, open blocks are closed. *)
Definition finish (st : lexer) : verdict + list token :=
  match lx_mode st with
  | Stopped v => inl v
  | Quote1 _ | InStr1 _ _ | InStr3 _ _ _ => inl Invalid
  | LineStart _ | InComment true =>
      match depth st with
      | 0 => inr (rev (tokens st) ++ closing_tokens st)
      | S _ => inl Unmodelled
      end
  | Between | InComment false =>
      match depth st with
      | 0 => inr (rev (tokens st) ++ [NEWLINE] ++ closing_tokens st)
      | S _ => inl Unmodelled
      end
  | InName acc =>
      match depth st with
      | 0 => inr (rev (tokens st) ++ [NAME acc; NEWLINE] ++ closing_tokens st)
      | S _ => inl Unmodelled
      end
  | Quote2 _ =>
      match depth st with
      | 0 => inr (rev (tokens st) ++ [STRING; NEWLINE] ++ closing_tokens st)
      | S _ => inl Unmodelled
      end
  end.

Definition tokenize (source : string) : verdict + list token :=
  finish (lex source start).

Definition keywords : list string :=
  ["False"; "None"; "True"; "and"; "as"; "assert"; "async"; "await"; "break";
   "class"; "continue"; "def"; "del"; "elif"; "else"; "except"; "finally";
   "for"; "from"; "global"; "if"; "import"; "in"; "is"; "lambda"; "nonlocal";
   "not"; "or"; "pass"; "raise"; "return"; "try"; "while"; "with"; "yield"].

Definition is_keyword (s : string) : bool := existsb (String.eqb s) keywords.

(** The innermost open block has a statement now. *)
Definition filled (blocks : list bool) : list bool :=
  match blocks with
  | [] => []
  | _ :: outer => true :: outer
  end.

(** The statements of the fragment:
      file      := statement* ENDMARKER
      statement := STRING NEWLINE
                 | 'pass' NEWLINE
                 | 'import' NAME NEWLINE
                 | 'def' NAME '(' ')' ':' NEWLINE INDENT statement+ DEDENT
    [blocks] has one entry per open [def] body: whether it has a statement. *)
Fixpoint statements (blocks : list bool) (toks : list token) : bool :=
  match toks with
  | [ENDMARKER] => match blocks with [] => true | _ => false end
  | DEDENT :: rest =>
      match blocks with
      | true :: outer => statements outer rest
      | _ => false
      end
  | STRING :: NEWLINE :: rest => statements (filled blocks) rest
  | NAME kw :: rest =>
      if String.eqb kw "pass" then
        match rest with
        | NEWLINE :: rest' => statements (filled blocks) rest'
        | _ => false
        end
      else if String.eqb kw "import" then
        match rest with
        | NAME m :: NEWLINE :: rest' =>
            negb (is_keyword m) && statements (filled blocks) rest'
        | _ => false
        end
      else if String.eqb kw "def" then
        match rest with
        | NAME f :: LPAR :: RPAR :: COLON :: NEWLINE :: INDENT :: rest' =>
            negb (is_keyword f) && statements (false :: filled blocks) rest'
        | _ => false
        end
      else false
  | _ => false
  end.

(** [ast.parse] on a text of the fragment. *)
Definition check_syntax (source : string) : verdict :=
  match tokenize source with
  | inl v => v
  | inr toks => if statements [] toks then Valid else Unmodelled
  end.

End PySyntax.


(* ===================================================================== *)
(** * Vocabulary of the round trip                                        *)
(* ===================================================================== *)

Module RoundTrip.
Import Pathlib Ast TestGen GenSpec PySyntax.

Definition chars (s : string) : list ascii := list_ascii_of_string s.

(** No character of [s] is one of [bad]. *)
Definition free_of (bad : list ascii) (s : string) : bool :=
  forallb (fun c => negb (existsb (Ascii.eqb c) bad)) (chars s).

(** A file name without backslash and without double quote. *)
Definition plain_file_name (p : Path) : bool :=
  free_of [backslash; quote] (Pathlib.name p).

(** A name made of characters that an identifier may hold. *)
Definition name_chars (s : string) : bool := forallb is_name_char (chars s).

(** A test case whose stub is tokenized as a definition: its name is an
    identifier, its description holds no quote, backslash or NUL. *)
Definition lexable_case (tc : TestCase) : bool :=
  match tc_name tc with
  | String c n => is_name_start c && name_chars n
  | EmptyString => false
  end
  && free_of [nul; backslash; quote] (tc_description tc).

(** The tokens of one stub. *)
Definition block (n : string) : list token :=
  [NAME "def"; NAME n; LPAR; RPAR; COLON; NEWLINE; INDENT;
   STRING; NEWLINE; NAME "pass"; NEWLINE].

(** The tokens of a sequence of stubs that starts with the blocks [stack]
    open and ends with its last block open. *)
Fixpoint layout (stack : list nat) (names : list string) : list token :=
  match names with
  | [] => []
  | n :: ns => List.map (fun _ => DEDENT) stack ++ block n ++ layout [4] ns
  end.

Definition stack_after (stack : list nat) (names : list string) : list nat :=
  match names with
  | [] => stack
  | _ => [4]
  end.

Definition preamble_tokens : list token :=
  [STRING; NEWLINE; NAME "import"; NAME "pytest"; NEWLINE].

(** The [def] keywords of a token sequence: its function definitions. *)
Definition is_def (t : token) : bool :=
  match t with
  | NAME s => String.eqb s "def"
  | _ => false
  end.

Definition def_count (toks : list token) : nat :=
  length (List.filter is_def toks).

(** A parser that decides as the grammar above wherever that decides. *)
Definition agrees_with_grammar (ast_parse : string -> option node) : Prop :=
  forall source : string,
    match check_syntax source with
    | Valid => is_Some (ast_parse source)
    | Invalid => ast_parse source = None
    | Unmodelled => True
    end.

(** The least such parser, with an empty module for every valid text. *)
Definition grammar_parser (source : string) : option node :=
  match check_syntax source with
  | Valid => Some (Node ast_Module [])
  | _ => None
  end.

(** A file whose name holds a backslash, as an archive packed on Windows
    leaves it on a POSIX system. *)
Definition windows_fs : filesystem :=
  {| root := Dir [("src\util.py", File "")]; cwd := [] |}.

(** A file whose name ends in a backslash. *)
Definition trailing_backslash_fs : filesystem :=
  {| root := Dir [("notes\", File "")]; cwd := [] |}.

End RoundTrip.

(* ===================================================================== *)
(** * Sample inputs                                                       *)
(* ===================================================================== *)

Module Samples.
Import Pathlib Ast TestGen.

(** A project directory that holds nothing but an empty directory named
    like a source file. *)
Definition tree_with_package_dir : filesystem :=
  {| root := Dir [("proj", Dir [("pkg.py", Dir [])])]; cwd := [] |}.

Definition geometry_source : string := "def area(w, h): return w * h".
Definition helper_source : string := "def _helper(): pass".
Definition broken_source : string := "def (".

(** [Module(body=[FunctionDef(name='area', args=arguments(args=[arg('w'),
    arg('h')]), body=[Return(BinOp(Name('w'), Mult(), Name('h')))])])] *)
Definition geometry_tree : node :=
  Node ast_Module
    [Node (ast_FunctionDef "area" ["w"; "h"] 1)
       [Node ast_Other [Node ast_Other []; Node ast_Other []];
        Node ast_Other
          [Node ast_Other
             [Node ast_Other [Node ast_Other []];
              Node ast_Other [];
              Node ast_Other [Node ast_Other []]]]]].

(** [Module(body=[FunctionDef(name='_helper', args=arguments(), body=[Pass()])])] *)
Definition helper_tree : node :=
  Node ast_Module
    [Node (ast_FunctionDef "_helper" [] 1)
       [Node ast_Other []; Node ast_Other []]].

Definition empty_tree : node := Node ast_Module [].

(** [Module(body=[AsyncFunctionDef(name='fetch', args=arguments(),
    body=[Pass()])])], the tree of [async def fetch(): pass]. *)
Definition coroutine_tree : node :=
  Node ast_Module
    [Node (ast_AsyncFunctionDef "fetch" [] 1)
       [Node ast_Other []; Node ast_Other []]].

(** [ast.parse] on the sample texts. *)
Definition sample_parse (source : string) : option node :=
  if String.eqb source geometry_source then Some geometry_tree
  else if String.eqb source helper_source then Some helper_tree
  else if String.eqb source "" then Some empty_tree
  else None.

Definition sample_fs : filesystem :=
  {| root := Dir [("src", Dir [("geometry.py", File geometry_source);
                               ("helpers.py", File helper_source);
                               ("empty.py", File "");
                               ("broken.py", File broken_source)])];
     cwd := [] |}.

Definition sample_generator : TestGenerator := __init__ main_config.

End Samples.

(* ===================================================================== *)
(** * Further vocabulary and sample inputs                                *)
(* ===================================================================== *)

Module ExtraSpec.
Import Pathlib Analyzer Ast TestGen GenSpec Samples.

(** A tree with the text of every regular file forgotten. *)
Fixpoint forget_contents (n : fsnode) : fsnode :=
  match n with
  | File _ => File ""
  | Dir entries =>
      Dir (List.map (fun e => (fst e, forget_contents (snd e))) entries)
  end.

(** Two file systems with the same names in the same places. *)
Definition same_layout (fs1 fs2 : filesystem) : Prop :=
  forget_contents (root fs1) = forget_contents (root fs2)
  /\ cwd fs1 = cwd fs2.

Definition ends_with (sfx s : string) : Prop :=
  exists stem : string, s = stem +:+ sfx.

(** The placeholder metrics of a record. *)
Definition is_placeholder (r : AnalysisRecord) : Prop :=
  lines_of_code r = 0%Z /\ cyclomatic_complexity r = 0%Z /\ issues r = [].

(** A project with sources at two depths, a text file and a compiled file. *)
Definition project_fs : filesystem :=
  {| root :=
       Dir [("proj",
             Dir [("README.md", File "Overture");
                  ("app.py", File "def run(): pass");
                  ("core", Dir [("engine.py", File "def start(): pass");
                                ("engine.pyc", File "")]);
                  ("empty", Dir [])])];
     cwd := [] |}.

(** The same names with other texts. *)
Definition project_fs_rewritten : filesystem :=
  {| root :=
       Dir [("proj",
             Dir [("README.md", File "");
                  ("app.py", File "import os");
                  ("core", Dir [("engine.py", File "x = 1");
                                ("engine.pyc", File "0")]);
                  ("empty", Dir [])])];
     cwd := [] |}.

(** Configurations: no generation section; flags that are not booleans; a
    generation section that is not a mapping. *)
Definition bare_config : pyval := PyDict ∅.

Definition loose_config : pyval :=
  PyDict {[ "generation" :=
              PyDict (<[ "include_edge_cases" := PyInt 1 ]>
                        {[ "include_error_cases" := PyStr "" ]}) ]}.

Definition broken_config : pyval := PyDict {[ "generation" := PyBool true ]}.

(** [class Shape: def area(self): ...; def area(): ...], a method and a
    module-level function of one name, and a function nested in the
    latter. *)
Definition shapes_tree : node :=
  Node ast_Module
    [Node (ast_ClassDef "Shape")
       [Node (ast_FunctionDef "area" ["self"] 2) [Node ast_Other []]];
     Node (ast_FunctionDef "area" [] 5)
       [Node ast_Other [];
        Node (ast_FunctionDef "scale" ["k"] 6) [Node ast_Other []]]].

(** The tree of [geometry_source] with another parameter list and line. *)
Definition geometry_tree_moved : node :=
  Node ast_Module
    [Node ast_Other [];
     Node (ast_FunctionDef "area" ["width"; "height"; "unit"] 40) []].

Definition shapes_source : string := "class Shape: ...".
Definition moved_source : string := "# moved".
Definition coroutine_source : string := "async def fetch(): pass".

(** [ast.parse] on these texts, and a file system that holds them. *)
Definition extra_parse (source : string) : option node :=
  if String.eqb source shapes_source then Some shapes_tree
  else if String.eqb source moved_source then Some geometry_tree_moved
  else if String.eqb source coroutine_source then Some coroutine_tree
  else None.

Definition extra_fs : filesystem :=
  {| root := Dir [("lib", Dir [("geometry.py", File moved_source);
                               ("shapes.py", File shapes_source);
                               ("fetch.py", File coroutine_source)])];
     cwd := ["lib"] |}.

End ExtraSpec.

(* ===================================================================== *)
(** * Properties of analyzer.py                                           *)
(* ===================================================================== *)

Module AnalyzerProps.
Import Pathlib Analyzer Samples.

(** The loop of [main] appends one record per path, in order. *)
Lemma collect_records (paths : list Path) (acc : list AnalysisRecord) :
  fold_left (fun results file => results ++ [analyze_file (str file)]) paths acc
  = acc ++ ((fun file => analyze_file (str file)) <$> paths).
Proof.
  revert acc. induction paths as [|p paths IH]; intros acc; simpl.
  - by rewrite app_nil_r.
  - rewrite IH, <- app_assoc. done.
Qed.

Lemma analyze_single_file fs target :
  is_file fs target = true ->
  analyze fs target = [analyze_file (str target)].
Proof. intros H. unfold analyze. by rewrite H. Qed.

Lemma analyze_directory fs target :
  is_file fs target = false -> is_dir fs target = true ->
  analyze fs target
  = (fun file => analyze_file (str file)) <$> rglob fs target "*.py".
Proof.
  intros Hf Hd. unfold analyze. rewrite Hf, Hd. by rewrite collect_records.
Qed.

Lemma is_dir_not_file fs target : is_dir fs target = true -> is_file fs target = false.
Proof.
  unfold is_dir, is_file. destruct (resolve fs target) as [[?|?]|]; done.
Qed.

(** [*.py] matches exactly the names that end in [.py]. *)
Lemma fnmatch_star_suffix (lit nm : string) :
  (forall c, In c (list_ascii_of_string lit) -> c <> "*"%char /\ c <> "?"%char) ->
  fnmatch (String "*" lit) nm = true <-> exists stem, nm = stem +:+ lit.
Proof.
  intros Hlit.
  assert (Hexact : forall l n, (forall c, In c (list_ascii_of_string l) -> c <> "*"%char /\ c <> "?"%char) ->
            fnmatch l n = true <-> n = l).
  { clear. induction l as [|c l IH]; intros n Hl.
    - simpl. destruct n; split; congruence.
    - assert (Hc : c <> "*"%char /\ c <> "?"%char) by (apply Hl; simpl; auto).
      assert (Hl' : forall c, In c (list_ascii_of_string l) -> c <> "*"%char /\ c <> "?"%char)
        by (intros; apply Hl; simpl; auto).
      destruct Hc as [Hs Hq].
      assert (Hstep : fnmatch (String c l) n
                = match n with EmptyString => false
                  | String d n' => Ascii.eqb c d && fnmatch l n' end).
      { simpl. destruct c as [[] [] [] [] [] [] [] []]; try reflexivity; congruence. }
      rewrite Hstep. destruct n as [|d n].
      + split; congruence.
      + rewrite andb_true_iff, Ascii.eqb_eq, (IH n Hl'). split.
        * intros [-> ->]. done.
        * intros [= -> ->]. done. }
  simpl. induction nm as [|d nm IH].
  - rewrite orb_false_r, (Hexact lit "" Hlit). split.
    + intros <-. by exists "".
    + intros [stem H]. destruct stem; simpl in H; [done | discriminate].
  - rewrite orb_true_iff, (Hexact lit _ Hlit), IH. split.
    + intros [<- | [stem ->]]; [by exists "" | by exists (String d stem)].
    + intros [stem H]. destruct stem as [|e stem]; simpl in H.
      * by left.
      * right. injection H as -> ->. by exists stem.
Qed.

Lemma fnmatch_py nm : fnmatch "*.py" nm = true <-> exists stem, nm = stem +:+ ".py".
Proof.
  apply fnmatch_star_suffix. simpl. intros c [<-|[<-|[<-|[]]]]; split; discriminate.
Qed.

Lemma fsnode_nested_ind (P : fsnode -> Prop) :
  (forall s, P (File s)) ->
  (forall entries, Forall (fun e => P (snd e)) entries -> P (Dir entries)) ->
  forall n, P n.
Proof.
  intros HF HD. fix IH 1. intros [s|entries]; [apply HF|]. apply HD.
  induction entries as [|[m c] es IHes]; constructor; [apply IH | exact IHes].
Qed.

(** [rglob] yields one path per matching entry: the regular files and the
    directories whose name matches. *)
Lemma select_from_count pat prefix n :
  length (select_from pat prefix n)
  = spec_matching_files pat n + matching_dirs pat n.
Proof.
  revert prefix. induction n as [s | entries IH] using fsnode_nested_ind;
    intros prefix; [done|].
  simpl. rewrite length_app. unfold matching_names.
  induction IH as [|[m c] es Hc _ IHes]; [done|].
  cbn [omap list_omap List.flat_map List.map list_sum fst snd] in *.
  rewrite length_app, Hc.
  destruct c as [s|sub]; destruct (fnmatch pat m); simpl length;
    repeat match goal with
           | |- context [list_sum (?x :: ?l)] =>
               change (list_sum (x :: l)) with (x + list_sum l)
           end; lia.
Qed.

Lemma rglob_count fs target pat n :
  resolve fs target = Some n ->
  length (rglob fs target pat) = spec_matching_files pat n + matching_dirs pat n.
Proof.
  intros H. unfold rglob. rewrite H, length_fmap. apply select_from_count.
Qed.

(** Where no directory below the target has a matching name, the records
    are as many as the matching files. *)
Lemma analyze_directory_count fs target entries :
  resolve fs target = Some (Dir entries) ->
  matching_dirs "*.py" (Dir entries) = 0 ->
  length (analyze fs target) = spec_matching_files "*.py" (Dir entries).
Proof.
  intros Hr Hd.
  assert (His : is_dir fs target = true) by (unfold is_dir; by rewrite Hr).
  rewrite (analyze_directory _ _ (is_dir_not_file _ _ His) His), length_fmap.
  rewrite (rglob_count _ _ _ _ Hr). lia.
Qed.

(** C3 (analyzer.py, main, lines 29-38).  One record per matching file does
    not hold for every directory: [rglob] also yields a directory whose name
    matches.  For a directory [proj] that holds only an empty directory
    [pkg.py], there is no matching file, and one record is produced. *)
Theorem analyze_directory_named_like_source :
  is_dir tree_with_package_dir (Path_of "proj") = true
  /\ resolve tree_with_package_dir (Path_of "proj") = Some (Dir [("pkg.py", Dir [])])
  /\ spec_matching_files "*.py" (Dir [("pkg.py", Dir [])]) = 0
  /\ analyze tree_with_package_dir (Path_of "proj") = [analyze_file "proj/pkg.py"]
  /\ main tree_with_package_dir ["analyzer.py"; "proj"]
     = ([Json [analyze_file "proj/pkg.py"]], Exit 0).
Proof. repeat split; reflexivity. Qed.

(** C4 (analyzer.py, analyze_file, lines 12-20).  The record of a path has
    that path as its [file], zero [lines_of_code], zero
    [cyclomatic_complexity] and no [issues]; the file system is not
    consulted. *)
Theorem analyze_file_placeholder (filepath : string) :
  file (analyze_file filepath) = filepath
  /\ lines_of_code (analyze_file filepath) = 0%Z
  /\ cyclomatic_complexity (analyze_file filepath) = 0%Z
  /\ issues (analyze_file filepath) = [].
Proof. unfold analyze_file. simpl. auto. Qed.



End AnalyzerProps.

(* ===================================================================== *)
(** * Properties of test-generator.py                                     *)
(* ===================================================================== *)

Module TestGenProps.
Import Pathlib Ast TestGen GenSpec Samples.

(** ** Strings *)

Lemma append_cons (x : ascii) (a b : string) :
  String x a +:+ b = String x (a +:+ b).
Proof. reflexivity. Qed.

Lemma append_assoc (a b c : string) : (a +:+ b) +:+ c = a +:+ (b +:+ c).
Proof.
  induction a as [|x a IH]; [done | by rewrite !append_cons, IH].
Qed.

Lemma append_nil_r (a : string) : a +:+ "" = a.
Proof. induction a as [|x a IH]; [done | by rewrite append_cons, IH]. Qed.

Lemma chars_append (a b : string) :
  list_ascii_of_string (a +:+ b)
  = list_ascii_of_string a ++ list_ascii_of_string b.
Proof.
  induction a as [|x a IH]; [done | rewrite append_cons; simpl; by rewrite IH].
Qed.

Lemma chars_inj (a b : string) :
  list_ascii_of_string a = list_ascii_of_string b -> a = b.
Proof.
  intros H. rewrite <- (string_of_list_ascii_of_string a),
    <- (string_of_list_ascii_of_string b). by rewrite H.
Qed.

Lemma append_inj_l (a b s : string) : a +:+ s = b +:+ s -> a = b.
Proof.
  intros H. apply chars_inj. apply (f_equal list_ascii_of_string) in H.
  rewrite !chars_append in H. by apply app_inv_tail in H.
Qed.

(** ** The generator object is only read *)

Lemma ret_preserves {A} (a : A) : preserves_self (ret a).
Proof. by intros self. Qed.

Lemma raise_preserves {A} (e : exn) : preserves_self (@raise A e).
Proof. by intros self. Qed.

Lemma bind_preserves {A B} (m : M A) (k : A -> M B) :
  preserves_self m -> (forall a, preserves_self (k a)) ->
  preserves_self (bind m k).
Proof.
  intros Hm Hk self. unfold bind. specialize (Hm self).
  destruct (m self) as [[a|e] self']; simpl in Hm; subst self'.
  - apply Hk.
  - done.
Qed.

Lemma for_each_preserves {A B} (l : list A) (body : B -> A -> M B) (acc : B) :
  (forall acc x, preserves_self (body acc x)) ->
  preserves_self (for_each l body acc).
Proof.
  intros Hbody. revert acc. induction l as [|x l IH]; intros acc; simpl.
  - apply ret_preserves.
  - apply bind_preserves; [apply Hbody | intros; apply IH].
Qed.

Lemma self_config_preserves : preserves_self self_config.
Proof. by intros self. Qed.

Lemma dict_get_preserves d key dflt : preserves_self (dict_get d key dflt).
Proof. destruct d; first [apply raise_preserves | apply ret_preserves]. Qed.

Create HintDb frame.
#[local] Hint Resolve ret_preserves raise_preserves self_config_preserves
  dict_get_preserves : frame.

Ltac frame :=
  repeat first
    [ apply bind_preserves; [| intros ?]
    | apply for_each_preserves; intros ? ?
    | solve [auto with frame]
    | match goal with
      | |- preserves_self (if ?b then _ else _) => destruct b
      | |- preserves_self (match ?o with Some _ => _ | None => _ end) =>
          destruct o
      end ].

Lemma generate_test_cases_preserves f : preserves_self (_generate_test_cases f).
Proof. unfold _generate_test_cases. frame. Qed.

Lemma analyze_function_preserves f : preserves_self (analyze_function f).
Proof.
  unfold analyze_function. apply bind_preserves;
    [apply generate_test_cases_preserves | intros; apply ret_preserves].
Qed.

Lemma generate_test_file_preserves fs ast_parse source_path :
  preserves_self (generate_test_file fs ast_parse source_path).
Proof.
  unfold generate_test_file. frame.
Qed.

(** ** Test-case derivation *)

Lemma bind_ok {A B} (m : M A) (k : A -> M B) self a self' :
  m self = (Ok a, self') -> bind m k self = k a self'.
Proof. intros H. unfold bind. by rewrite H. Qed.

Lemma bind_raise {A B} (m : M A) (k : A -> M B) self e self' :
  m self = (Raise e, self') -> bind m k self = (Raise e, self').
Proof. intros H. unfold bind. by rewrite H. Qed.

Lemma generation_section_inv cfg d :
  generation_section cfg = Some d ->
  exists m, cfg = PyDict m /\ default (PyDict ∅) (m !! "generation") = PyDict d.
Proof.
  unfold generation_section. destruct cfg as [| | | |m]; try discriminate.
  intros H. exists m. split; [done|].
  destruct (m !! "generation") as [[| | | |d']|]; simpl; congruence.
Qed.

Lemma generate_test_cases_ok f g d :
  generation_section (config g) = Some d ->
  _generate_test_cases f g
  = (Ok (derived_cases (flag_of d "include_edge_cases")
                       (flag_of d "include_error_cases") f), g).
Proof.
  intros H. apply generation_section_inv in H as (m & Hc & Hg).
  unfold _generate_test_cases, bind, self_config. rewrite Hc.
  unfold dict_get at 1. unfold ret at 1. rewrite Hg.
  unfold dict_get at 1. unfold ret at 1. rewrite Hc.
  unfold dict_get at 1. unfold ret at 1. rewrite Hg.
  unfold dict_get, ret, derived_cases, flag_of, basic_case, edge_case, error_case.
  destruct (truthy (default PyNone (d !! "include_edge_cases")));
    destruct (truthy (default PyNone (d !! "include_error_cases")));
    reflexivity.
Qed.

Lemma generate_test_cases_malformed f g :
  generation_section (config g) = None ->
  _generate_test_cases f g = (Raise AttributeError, g).
Proof.
  unfold generation_section, _generate_test_cases, bind, self_config, dict_get.
  destruct (config g) as [| | | |m]; try reflexivity.
  destruct (m !! "generation") as [[| | | |d']|]; intros [=]; reflexivity.
Qed.

Lemma analyze_function_ok f g d :
  generation_section (config g) = Some d ->
  analyze_function f g
  = (Ok {| md_name := name f;
           md_args := args f;
           md_line_number := lineno f;
           md_test_cases :=
             derived_cases (flag_of d "include_edge_cases")
                           (flag_of d "include_error_cases") f |}, g).
Proof.
  intros H. unfold analyze_function.
  by rewrite (bind_ok _ _ _ _ _ (generate_test_cases_ok f g d H)).
Qed.

(** ** Rendering *)

Lemma emit_test_case_stub acc tc : emit_test_case acc tc = acc +:+ stub tc.
Proof. unfold emit_test_case, stub. cbv zeta. by rewrite !append_assoc. Qed.

Lemma stubs_app l1 l2 : stubs (l1 ++ l2) = stubs l1 +:+ stubs l2.
Proof.
  induction l1 as [|tc l1 IH]; simpl; [done|]. by rewrite IH, append_assoc.
Qed.

Lemma emit_loop (cases : list TestCase) (acc : string) g :
  for_each cases (fun test_content test_case =>
                    ret (emit_test_case test_content test_case)) acc g
  = (Ok (acc +:+ stubs cases), g).
Proof.
  revert acc. induction cases as [|tc cases IH]; intros acc; simpl.
  - by rewrite append_nil_r.
  - unfold bind, ret at 1. rewrite IH, emit_test_case_stub, append_assoc. done.
Qed.

Lemma function_loop_cons f functions acc :
  function_loop (f :: functions) acc
  = let* acc' :=
      (if negb (String.prefix "_" (name f)) then
         let* metadata := analyze_function f in
         for_each (md_test_cases metadata)
           (fun test_content test_case =>
              ret (emit_test_case test_content test_case))
           acc
       else ret acc) in
    function_loop functions acc'.
Proof. reflexivity. Qed.

Lemma function_loop_ok functions acc g d :
  generation_section (config g) = Some d ->
  function_loop functions acc g
  = (Ok (acc +:+ stubs (List.flat_map
                          (derived_cases (flag_of d "include_edge_cases")
                                         (flag_of d "include_error_cases"))
                          (public_functions functions))), g).
Proof.
  intros Hd. revert acc.
  induction functions as [|f fs IH]; intros acc.
  - simpl. by rewrite append_nil_r.
  - rewrite function_loop_cons. unfold public_functions. simpl List.filter.
    unfold is_public at 1, is_private at 1.
    destruct (String.prefix "_" (name f)); cbn [negb].
    + rewrite (bind_ok _ _ g acc g); [apply IH | reflexivity].
    + rewrite (bind_ok _ _ g
                 (acc +:+ stubs (derived_cases (flag_of d "include_edge_cases")
                                   (flag_of d "include_error_cases") f)) g).
      * rewrite IH. cbn [List.flat_map]. fold (public_functions fs).
        by rewrite stubs_app, append_assoc.
      * rewrite (bind_ok _ _ _ _ _ (analyze_function_ok f g d Hd)).
        simpl md_test_cases. by rewrite emit_loop.
Qed.

Lemma function_loop_all_private functions acc g :
  public_functions functions = [] ->
  function_loop functions acc g = (Ok acc, g).
Proof.
  revert acc. induction functions as [|f fs IH]; intros acc; [done|].
  rewrite function_loop_cons. unfold public_functions. simpl List.filter.
  unfold is_public at 1, is_private at 1.
  destruct (String.prefix "_" (name f)); cbn [negb]; [|discriminate].
  intros H. rewrite (bind_ok _ _ g acc g); [by apply IH | reflexivity].
Qed.

Lemma function_loop_malformed functions acc g :
  generation_section (config g) = None ->
  public_functions functions <> [] ->
  function_loop functions acc g = (Raise AttributeError, g).
Proof.
  intros Hd. revert acc. induction functions as [|f fs IH]; intros acc; [done|].
  rewrite function_loop_cons. unfold public_functions. simpl List.filter.
  unfold is_public at 1, is_private at 1.
  destruct (String.prefix "_" (name f)); cbn [negb]; intros Hne.
  - rewrite (bind_ok _ _ g acc g); [by apply IH | reflexivity].
  - apply bind_raise. apply bind_raise. unfold analyze_function.
    apply bind_raise. by apply generate_test_cases_malformed.
Qed.

Lemma generate_test_file_unfold fs ast_parse source_path source tree g :
  read_text fs source_path = Some source ->
  ast_parse source = Some tree ->
  generate_test_file fs ast_parse source_path g
  = (let* test_content :=
       function_loop (discovered tree) (header source_path +:+ import_line) in
     ret test_content) g.
Proof.
  intros Hr Hp. unfold generate_test_file. rewrite Hr.
  rewrite (bind_ok _ _ g source g) by reflexivity. rewrite Hp.
  rewrite (bind_ok _ _ g tree g) by reflexivity. reflexivity.
Qed.

Lemma generate_test_file_ok fs ast_parse source_path source tree g d :
  read_text fs source_path = Some source ->
  ast_parse source = Some tree ->
  generation_section (config g) = Some d ->
  generate_test_file fs ast_parse source_path g
  = (Ok (header source_path +:+ import_line
         +:+ stubs (List.flat_map
                      (derived_cases (flag_of d "include_edge_cases")
                                     (flag_of d "include_error_cases"))
                      (public_functions (discovered tree)))), g).
Proof.
  intros Hr Hp Hd. rewrite (generate_test_file_unfold _ _ _ _ _ _ Hr Hp).
  rewrite (bind_ok _ _ _ _ _ (function_loop_ok _ _ _ _ Hd)).
  unfold ret. by rewrite append_assoc.
Qed.

Lemma generate_test_file_all_private fs ast_parse source_path source tree g :
  read_text fs source_path = Some source ->
  ast_parse source = Some tree ->
  public_functions (discovered tree) = [] ->
  generate_test_file fs ast_parse source_path g
  = (Ok (header source_path +:+ import_line), g).
Proof.
  intros Hr Hp Hn. rewrite (generate_test_file_unfold _ _ _ _ _ _ Hr Hp).
  by rewrite (bind_ok _ _ _ _ _ (function_loop_all_private _ _ _ Hn)).
Qed.

Lemma generate_test_file_malformed fs ast_parse source_path source g :
  read_text fs source_path = Some source ->
  ast_parse source = None ->
  generate_test_file fs ast_parse source_path g = (Raise SyntaxError, g).
Proof.
  intros Hr Hp. unfold generate_test_file. rewrite Hr.
  rewrite (bind_ok _ _ g source g) by reflexivity. rewrite Hp.
  by rewrite (bind_raise _ _ g SyntaxError g).
Qed.

Lemma generate_test_file_bad_config fs ast_parse source_path source tree g :
  read_text fs source_path = Some source ->
  ast_parse source = Some tree ->
  generation_section (config g) = None ->
  public_functions (discovered tree) <> [] ->
  generate_test_file fs ast_parse source_path g = (Raise AttributeError, g).
Proof.
  intros Hr Hp Hd Hne. rewrite (generate_test_file_unfold _ _ _ _ _ _ Hr Hp).
  apply bind_raise. by apply function_loop_malformed.
Qed.

(** ** Discovery visits every node once *)

Lemma walk_queue_subnodes (todo : list node) :
  walk_queue todo ≡ₚ List.flat_map subnodes todo.
Proof.
  funelim (walk_queue todo); [done|].
  rewrite H. destruct n as [c cs]. cbn [List.flat_map subnodes iter_child_nodes].
  rewrite List.flat_map_app. simpl. constructor.
  rewrite (Permutation_app_comm (List.flat_map subnodes rest)).
  reflexivity.
Qed.

Lemma walk_subnodes tree : walk tree ≡ₚ subnodes tree.
Proof.
  unfold walk. rewrite walk_queue_subnodes. simpl. by rewrite app_nil_r.
Qed.

Lemma discovered_function_defs tree : discovered tree ≡ₚ function_defs tree.
Proof. unfold discovered, function_defs. by rewrite walk_subnodes. Qed.

Lemma filter_Permutation {A} (p : A -> bool) (l1 l2 : list A) :
  l1 ≡ₚ l2 -> List.filter p l1 ≡ₚ List.filter p l2.
Proof.
  induction 1 as [|x l1 l2 _ IH|x y l|l1 l2 l3 _ IH1 _ IH2]; simpl.
  - done.
  - destruct (p x); [by constructor | done].
  - destruct (p x), (p y); try done. apply perm_swap.
  - by etrans.
Qed.

Lemma public_discovered tree :
  public_functions (discovered tree) ≡ₚ public_functions (function_defs tree).
Proof. apply filter_Permutation, discovered_function_defs. Qed.

(** ** Names of the derived cases *)

Lemma derived_case_name edge error f tc :
  In tc (derived_cases edge error f) ->
  exists sfx, In sfx suffixes /\ tc_name tc = "test_" +:+ name f +:+ sfx.
Proof.
  unfold derived_cases, suffixes.
  destruct edge, error; simpl; intros H;
    repeat (destruct H as [<-|H]; [eexists; split; [|reflexivity]; simpl; auto|]);
    destruct H.
Qed.

Lemma stub_name_origin f p s1 s2 :
  In s1 suffixes -> In s2 suffixes ->
  "test_" +:+ f +:+ s1 = "test_" +:+ p +:+ s2 -> f = p.
Proof.
  intros H1 H2 H. apply String.app_inj in H.
  assert (Hrev : rev (list_ascii_of_string s1) ++ rev (list_ascii_of_string f)
                 = rev (list_ascii_of_string s2) ++ rev (list_ascii_of_string p)).
  { rewrite <- !rev_app_distr, <- !chars_append. by rewrite H. }
  unfold suffixes in H1, H2. simpl in H1, H2.
  destruct H1 as [<-|[<-|[<-|[]]]]; destruct H2 as [<-|[<-|[<-|[]]]];
    first [ by apply append_inj_l in H | simpl in Hrev; discriminate ].
Qed.

Lemma main_config_flags : both_flags_true main_config.
Proof.
  exists (<[ "include_edge_cases" := PyBool true ]>
            {[ "include_error_cases" := PyBool true ]}).
  repeat split; reflexivity.
Qed.

Lemma flag_of_true d key : d !! key = Some (PyBool true) -> flag_of d key = true.
Proof. intros H. unfold flag_of. by rewrite H. Qed.


Lemma length_three_each {A B} (h : A -> list B) (l : list A) :
  (forall x, length (h x) = 3) -> length (List.flat_map h l) = 3 * length l.
Proof.
  intros Hh. induction l as [|x l IH]; simpl; [done|].
  rewrite length_app, Hh, IH. lia.
Qed.

(** ** The claims *)



(** C2 (test-generator.py, generate_test_file, lines 65-72).  Every stub of
    the document belongs to a function definition whose name does not start
    with an underscore, no stub bears a name derived from an
    underscore-prefixed name, and a file whose function definitions are all
    underscore-prefixed yields the header and the import line with no stub. *)
Theorem private_functions_contribute_nothing
    fs ast_parse source_path source tree g :
  read_text fs source_path = Some source ->
  ast_parse source = Some tree ->
  (forall d, generation_section (config g) = Some d ->
     exists cases : list TestCase,
       generate_test_file fs ast_parse source_path g
       = (Ok (header source_path +:+ import_line +:+ stubs cases), g)
       /\ (forall tc, In tc cases ->
             exists f, In f (function_defs tree)
                       /\ String.prefix "_" (name f) = false
                       /\ In tc (derived_cases (flag_of d "include_edge_cases")
                                   (flag_of d "include_error_cases") f))
       /\ (forall tc p sfx, In tc cases ->
             String.prefix "_" p = true -> In sfx suffixes ->
             tc_name tc <> "test_" +:+ p +:+ sfx))
  /\ ((forall f, In f (function_defs tree) -> String.prefix "_" (name f) = true) ->
      generate_test_file fs ast_parse source_path g
      = (Ok (header source_path +:+ import_line +:+ stubs []), g)).
Proof.
  intros Hr Hp. split.
  - intros d Hd. eexists. split; [apply (generate_test_file_ok _ _ _ _ _ _ _ Hr Hp Hd)|].
    assert (Horigin : forall tc,
      In tc (List.flat_map
               (derived_cases (flag_of d "include_edge_cases")
                  (flag_of d "include_error_cases"))
               (public_functions (discovered tree))) ->
      exists f, In f (function_defs tree)
                /\ String.prefix "_" (name f) = false
                /\ In tc (derived_cases (flag_of d "include_edge_cases")
                            (flag_of d "include_error_cases") f)).
    { intros tc Htc. apply in_flat_map in Htc as (f & Hf & Htc).
      exists f. apply filter_In in Hf as [Hf Hpub]. repeat split.
      - eapply Permutation_in; [apply discovered_function_defs | exact Hf].
      - unfold is_public, is_private in Hpub. by destruct (String.prefix "_" (name f)).
      - exact Htc. }
    split; [exact Horigin|].
    intros tc p sfx Htc Hpriv Hsfx Hname.
    apply Horigin in Htc as (f & _ & Hpub & Htc).
    apply derived_case_name in Htc as (sfx' & Hsfx' & Hn).
    rewrite Hn in Hname. apply stub_name_origin in Hname; [|done|done].
    congruence.
  - intros Hall. simpl stubs. rewrite append_nil_r.
    apply (generate_test_file_all_private _ _ _ _ _ _ Hr Hp).
    assert (Hnone : public_functions (function_defs tree) = []).
    { unfold public_functions. induction (function_defs tree) as [|f l IH]; [done|].
      simpl. unfold is_public at 1, is_private at 1.
      rewrite (Hall f) by (simpl; auto). simpl. apply IH.
      intros f' Hf'. apply Hall. simpl. auto. }
    apply Permutation_nil. rewrite <- Hnone. symmetry. apply public_discovered.
Qed.

Lemma private_functions_contribute_nothing_witness :
  (forall d, generation_section (config sample_generator) = Some d ->
     exists cases : list TestCase,
       generate_test_file sample_fs sample_parse (Path_of "src/helpers.py")
         sample_generator
       = (Ok (header (Path_of "src/helpers.py") +:+ import_line +:+ stubs cases),
          sample_generator)
       /\ (forall tc, In tc cases ->
             exists f, In f (function_defs helper_tree)
                       /\ String.prefix "_" (name f) = false
                       /\ In tc (derived_cases (flag_of d "include_edge_cases")
                                   (flag_of d "include_error_cases") f))
       /\ (forall tc p sfx, In tc cases ->
             String.prefix "_" p = true -> In sfx suffixes ->
             tc_name tc <> "test_" +:+ p +:+ sfx))
  /\ ((forall f, In f (function_defs helper_tree) ->
         String.prefix "_" (name f) = true) ->
      generate_test_file sample_fs sample_parse (Path_of "src/helpers.py")
        sample_generator
      = (Ok (header (Path_of "src/helpers.py") +:+ import_line +:+ stubs []),
         sample_generator)).
Proof.
  apply (private_functions_contribute_nothing sample_fs sample_parse
           (Path_of "src/helpers.py") helper_source helper_tree
           sample_generator); reflexivity.
Defined.

(** C7 (test-generator.py, generate_test_file and main, lines 54-74 and
    91-93).  Where the text of the source file does not parse,
    [generate_test_file] raises SyntaxError, nobody catches it, and [main]
    has printed nothing. *)
Theorem parse_failure_aborts fs ast_parse (prog arg : string)
    (rest : list string) source :
  read_text fs (Path_of arg) = Some source ->
  ast_parse source = None ->
  (forall g, generate_test_file fs ast_parse (Path_of arg) g
             = (Raise SyntaxError, g))
  /\ main fs ast_parse (prog :: arg :: rest) = ([], Uncaught SyntaxError).
Proof.
  intros Hr Hp.
  assert (H : forall g, generate_test_file fs ast_parse (Path_of arg) g
                        = (Raise SyntaxError, g))
    by (intros g; by apply (generate_test_file_malformed _ _ _ source)).
  split; [exact H|]. unfold main. by rewrite H.
Qed.

Lemma parse_failure_aborts_witness :
  (forall g, generate_test_file sample_fs sample_parse (Path_of "src/broken.py") g
             = (Raise SyntaxError, g))
  /\ main sample_fs sample_parse ["test-generator.py"; "src/broken.py"]
     = ([], Uncaught SyntaxError).
Proof.
  apply (parse_failure_aborts sample_fs sample_parse "test-generator.py"
           "src/broken.py" [] broken_source); reflexivity.
Defined.

(** C8 (test-generator.py, _generate_test_cases and generate_test_file).
    The document is the docstring header naming the source file, the import
    line, and then the stubs of the public functions in discovery order,
    each function with its basic case first, its edge case next and its
    error-handling case last (the latter two where their flag is set). *)
Theorem document_layout fs ast_parse source_path source tree g d :
  read_text fs source_path = Some source ->
  ast_parse source = Some tree ->
  generation_section (config g) = Some d ->
  generate_test_file fs ast_parse source_path g
  = (Ok ((quotes3 +:+ "Tests for " +:+ Pathlib.name source_path +:+ quotes3
          +:+ nl +:+ nl)
         +:+ ("import pytest" +:+ nl +:+ nl)
         +:+ stubs
               (List.flat_map
                  (fun f =>
                     [basic_case (name f)]
                     ++ (if flag_of d "include_edge_cases"
                         then [edge_case (name f)] else [])
                     ++ (if flag_of d "include_error_cases"
                         then [error_case (name f)] else []))
                  (List.filter
                     (fun f => negb (String.prefix "_" (name f)))
                     (omap as_FunctionDef (walk tree))))), g).
Proof. intros Hr Hp Hd. apply (generate_test_file_ok _ _ _ _ _ _ _ Hr Hp Hd). Qed.

Lemma document_layout_witness :
  generate_test_file sample_fs sample_parse (Path_of "src/geometry.py")
    sample_generator
  = (Ok ((quotes3 +:+ "Tests for " +:+ Pathlib.name (Path_of "src/geometry.py")
          +:+ quotes3 +:+ nl +:+ nl)
         +:+ ("import pytest" +:+ nl +:+ nl)
         +:+ stubs
               (List.flat_map
                  (fun f =>
                     [basic_case (name f)]
                     ++ (if flag_of (<[ "include_edge_cases" := PyBool true ]>
                                       {[ "include_error_cases" := PyBool true ]})
                              "include_edge_cases"
                         then [edge_case (name f)] else [])
                     ++ (if flag_of (<[ "include_edge_cases" := PyBool true ]>
                                       {[ "include_error_cases" := PyBool true ]})
                              "include_error_cases"
                         then [error_case (name f)] else []))
                  (List.filter
                     (fun f => negb (String.prefix "_" (name f)))
                     (omap as_FunctionDef (walk geometry_tree))))),
     sample_generator).
Proof.
  apply (document_layout sample_fs sample_parse (Path_of "src/geometry.py")
           geometry_source geometry_tree sample_generator); reflexivity.
Defined.

(** C9 (test-generator.py, __init__ and _generate_test_cases).  No method
    of the generator changes the generator object: after
    [generate_test_file], [analyze_function] and [_generate_test_cases] the
    configuration mapping is the one the run started with, whether the
    method returned or raised. *)
Theorem config_is_read_only fs ast_parse source_path (f : FunctionDef)
    (g : TestGenerator) :
  snd (generate_test_file fs ast_parse source_path g) = g
  /\ snd (analyze_function f g) = g
  /\ snd (_generate_test_cases f g) = g
  /\ config (snd (generate_test_file fs ast_parse source_path g)) = config g.
Proof.
  pose proof (generate_test_file_preserves fs ast_parse source_path g) as H.
  repeat split.
  - exact H.
  - apply analyze_function_preserves.
  - apply generate_test_cases_preserves.
  - by rewrite H.
Qed.

(** C10 (test-generator.py, generate_test_file, lines 54-74).  Every
    document returned for a parseable file begins with the docstring header
    naming the source file and the import line; one is returned whenever
    the generation section of the configuration is absent or a mapping; and
    for a file without public function definitions, such as an empty one,
    the document is exactly the header and the import line. *)
Theorem document_preamble fs ast_parse source_path source tree g :
  read_text fs source_path = Some source ->
  ast_parse source = Some tree ->
  (forall doc g', generate_test_file fs ast_parse source_path g = (Ok doc, g') ->
     exists rest : string, doc = header source_path +:+ import_line +:+ rest)
  /\ (forall d, generation_section (config g) = Some d ->
        exists rest : string,
          generate_test_file fs ast_parse source_path g
          = (Ok (header source_path +:+ import_line +:+ rest), g))
  /\ (public_functions (function_defs tree) = [] ->
      generate_test_file fs ast_parse source_path g
      = (Ok (header source_path +:+ import_line), g))
  /\ header source_path
     = quotes3 +:+ "Tests for " +:+ Pathlib.name source_path +:+ quotes3
       +:+ nl +:+ nl
  /\ import_line = "import pytest" +:+ nl +:+ nl.
Proof.
  intros Hr Hp. split; [|split; [|split; [|split]]].
  - intros doc g' Hgen.
    destruct (generation_section (config g)) as [d|] eqn:Hd.
    + rewrite (generate_test_file_ok _ _ _ _ _ _ _ Hr Hp Hd) in Hgen.
      injection Hgen as <- _. eauto.
    + destruct (public_functions (discovered tree)) as [|f l] eqn:Hpub.
      * rewrite (generate_test_file_all_private _ _ _ _ _ _ Hr Hp Hpub) in Hgen.
        injection Hgen as <- _. exists "". by rewrite append_nil_r.
      * rewrite (generate_test_file_bad_config _ _ _ _ _ _ Hr Hp Hd) in Hgen;
          [discriminate | by rewrite Hpub].
  - intros d Hd. eexists. apply (generate_test_file_ok _ _ _ _ _ _ _ Hr Hp Hd).
  - intros Hnone. apply (generate_test_file_all_private _ _ _ _ _ _ Hr Hp).
    apply Permutation_nil. rewrite <- Hnone. symmetry. apply public_discovered.
  - reflexivity.
  - reflexivity.
Qed.

Lemma document_preamble_witness :
  (forall doc g',
     generate_test_file sample_fs sample_parse (Path_of "src/empty.py")
       sample_generator = (Ok doc, g') ->
     exists rest : string,
       doc = header (Path_of "src/empty.py") +:+ import_line +:+ rest)
  /\ (forall d, generation_section (config sample_generator) = Some d ->
        exists rest : string,
          generate_test_file sample_fs sample_parse (Path_of "src/empty.py")
            sample_generator
          = (Ok (header (Path_of "src/empty.py") +:+ import_line +:+ rest),
             sample_generator))
  /\ (public_functions (function_defs empty_tree) = [] ->
      generate_test_file sample_fs sample_parse (Path_of "src/empty.py")
        sample_generator
      = (Ok (header (Path_of "src/empty.py") +:+ import_line), sample_generator))
  /\ header (Path_of "src/empty.py")
     = quotes3 +:+ "Tests for " +:+ Pathlib.name (Path_of "src/empty.py")
       +:+ quotes3 +:+ nl +:+ nl
  /\ import_line = "import pytest" +:+ nl +:+ nl.
Proof.
  apply (document_preamble sample_fs sample_parse (Path_of "src/empty.py")
           "" empty_tree sample_generator); reflexivity.
Defined.

(** ** What counts as a function definition *)

(** The generator selects the nodes of class [ast.FunctionDef]: a
    coroutine ([async def]) is of another class and gets no stub. *)
Lemma async_def_is_not_discovered fs ast_parse source_path source g :
  read_text fs source_path = Some source ->
  ast_parse source = Some coroutine_tree ->
  function_defs coroutine_tree = []
  /\ generate_test_file fs ast_parse source_path g
     = (Ok (header source_path +:+ import_line), g).
Proof.
  intros Hr Hp. split; [reflexivity|].
  by apply (generate_test_file_all_private _ _ _ _ _ _ Hr Hp).
Qed.

(** ** The command line *)

(** With the configuration [main] builds, a parseable file gives one
    printed document, three stubs per public function, and status 0. *)
Lemma main_prints_document fs ast_parse (prog arg : string)
    (rest : list string) source tree :
  read_text fs (Path_of arg) = Some source ->
  ast_parse source = Some tree ->
  main fs ast_parse (prog :: arg :: rest)
  = ([header (Path_of arg) +:+ import_line
      +:+ stubs (List.flat_map (derived_cases true true)
                   (public_functions (discovered tree)))], Exited 0).
Proof.
  intros Hr Hp. unfold main.
  destruct main_config_flags as (d & Hd & He & Hx).
  rewrite (generate_test_file_ok _ _ _ _ _ (__init__ main_config) d Hr Hp Hd).
  by rewrite (flag_of_true _ _ He), (flag_of_true _ _ Hx).
Qed.

Lemma generator_usage fs ast_parse (argv : list string) :
  length argv < 2 ->
  main fs ast_parse argv
  = (["Usage: test-generator.py <source_file>"], Exited 1).
Proof. destruct argv as [|prog [|arg rest]]; simpl; [done | done | lia]. Qed.

End TestGenProps.

(* ===================================================================== *)
(** * The generated document and the syntax                               *)
(* ===================================================================== *)

Module SyntaxProps.
Import Pathlib Ast TestGen GenSpec Samples PySyntax RoundTrip.

(** ** The tokenizer on the parts of a document *)

Lemma lex_app (a b : string) (st : lexer) : lex (a +:+ b) st = lex b (lex a st).
Proof.
  revert st. induction a as [|c a IH]; intros st; [done|].
  change (String c a +:+ b) with (String c (a +:+ b)). simpl. apply IH.
Qed.

Lemma lex_name_chars (s acc : string) I T D :
  name_chars s = true ->
  lex s {| lx_mode := InName acc; indents := I; tokens := T; depth := D |}
  = {| lx_mode := InName (acc +:+ s); indents := I; tokens := T; depth := D |}.
Proof.
  unfold name_chars, chars. revert acc.
  induction s as [|c s IH]; intros acc H.
  - simpl. by rewrite TestGenProps.append_nil_r.
  - simpl in H. apply andb_true_iff in H as [Hc Hs].
    simpl lex. unfold step. simpl lx_mode. rewrite Hc. unfold set_mode. simpl.
    rewrite (IH _ Hs), TestGenProps.append_assoc. reflexivity.
Qed.

Lemma free_of_cons bad c s :
  free_of bad (String c s) = negb (existsb (Ascii.eqb c) bad) && free_of bad s.
Proof. reflexivity. Qed.

Lemma lex_string_body (s : string) I T D :
  free_of [nul; backslash; quote] s = true ->
  lex s {| lx_mode := InStr3 quote Plain 0; indents := I; tokens := T; depth := D |}
  = {| lx_mode := InStr3 quote Plain 0; indents := I; tokens := T; depth := D |}.
Proof.
  induction s as [|c s IH]; intros H; [done|].
  rewrite free_of_cons in H. apply andb_true_iff in H as [Hc Hs].
  simpl in Hc. rewrite !orb_false_r in Hc.
  apply negb_true_iff in Hc.
  apply orb_false_iff in Hc as [Hn Hc]. apply orb_false_iff in Hc as [Hb Hq].
  simpl lex. unfold step. simpl lx_mode. rewrite Hn. unfold in_escape.
  rewrite Hb, Hq. unfold set_mode. simpl. apply (IH Hs).
Qed.

Lemma lex_def (I : list nat) (T : list token) :
  I = [] \/ I = [4] ->
  lex "def " {| lx_mode := LineStart 0; indents := I; tokens := T; depth := 0 |}
  = {| lx_mode := Between; indents := [];
       tokens := NAME "def" :: List.map (fun _ => DEDENT) I ++ T; depth := 0 |}.
Proof. intros [-> | ->]; reflexivity. Qed.

Lemma lex_name (c : ascii) (n : string) I T D :
  is_name_start c = true ->
  name_chars n = true ->
  lex (String c n) {| lx_mode := Between; indents := I; tokens := T; depth := D |}
  = {| lx_mode := InName (String c n); indents := I; tokens := T; depth := D |}.
Proof.
  intros Hc Hn. simpl lex. unfold step, begin_token. simpl lx_mode. rewrite Hc.
  unfold set_mode. simpl. by rewrite (lex_name_chars _ _ _ _ _ Hn).
Qed.

Lemma lex_stub (n desc : string) (c : ascii) (I : list nat) (T : list token) :
  is_name_start c = true ->
  name_chars n = true ->
  free_of [nul; backslash; quote] desc = true ->
  I = [] \/ I = [4] ->
  lex (stub {| tc_name := String c n; tc_description := desc |})
    {| lx_mode := LineStart 0; indents := I; tokens := T; depth := 0 |}
  = {| lx_mode := LineStart 0; indents := [4];
       tokens := rev (block (String c n)) ++ List.map (fun _ => DEDENT) I ++ T;
       depth := 0 |}.
Proof.
  intros Hc Hn Hdesc HI. unfold stub. simpl tc_name. simpl tc_description.
  rewrite !lex_app, (lex_def _ _ HI), (lex_name _ _ _ _ _ Hc Hn).
  match goal with
  | |- context [lex desc ?st] =>
      change st with
        {| lx_mode := InStr3 quote Plain 0; indents := [4];
           tokens := INDENT :: NEWLINE :: COLON :: RPAR :: LPAR
                     :: NAME (String c n) :: NAME "def"
                     :: List.map (fun _ => DEDENT) I ++ T;
           depth := 0 |}
  end.
  rewrite (lex_string_body _ _ _ _ Hdesc). reflexivity.
Qed.

Lemma lex_stubs (cases : list TestCase) (I : list nat) (T : list token) :
  forallb lexable_case cases = true ->
  I = [] \/ I = [4] ->
  lex (stubs cases)
    {| lx_mode := LineStart 0; indents := I; tokens := T; depth := 0 |}
  = {| lx_mode := LineStart 0;
       indents := stack_after I (List.map tc_name cases);
       tokens := rev (layout I (List.map tc_name cases)) ++ T;
       depth := 0 |}.
Proof.
  revert I T. induction cases as [|tc cases IH]; intros I T Hall HI; [done|].
  simpl in Hall. apply andb_true_iff in Hall as [Htc Hall].
  unfold lexable_case in Htc. apply andb_true_iff in Htc as [Hname Hdesc].
  destruct tc as [nm desc]. simpl in Hname, Hdesc.
  destruct nm as [|c n]; [discriminate|].
  apply andb_true_iff in Hname as [Hc Hn].
  cbn [stubs]. rewrite lex_app, (lex_stub _ _ _ _ _ Hc Hn Hdesc HI).
  rewrite IH by auto. cbn [List.map layout stack_after tc_name].
  f_equal.
  - by destruct cases.
  - rewrite !rev_app_distr, <- !app_assoc. do 2 f_equal.
    destruct HI as [-> | ->]; reflexivity.
Qed.

Lemma lex_preamble (p : Path) :
  free_of [nul; backslash; quote] (Pathlib.name p) = true ->
  lex (header p +:+ import_line) start
  = {| lx_mode := LineStart 0; indents := []; tokens := rev preamble_tokens;
       depth := 0 |}.
Proof.
  intros Hp. unfold header, import_line. rewrite !lex_app.
  match goal with
  | |- context [lex (Pathlib.name p) ?st] =>
      change st with
        {| lx_mode := InStr3 quote Plain 0; indents := []; tokens := [];
           depth := 0 |}
  end.
  rewrite (lex_string_body _ _ _ _ Hp). reflexivity.
Qed.

(** ** The statements of a generated document *)

Lemma keyword_free (s : string) :
  String.prefix "test_" s = true -> is_keyword s = false.
Proof.
  intros Hs. destruct (is_keyword s) eqn:E; [|done].
  unfold is_keyword in E. apply existsb_exists in E as (kw & Hin & Heq).
  apply String.eqb_eq in Heq. subst kw. unfold keywords in Hin.
  repeat (destruct Hin as [<- | Hin]; [discriminate Hs|]). destruct Hin.
Qed.

Lemma statements_block (n : string) (rest : list token) (blocks : list bool) :
  is_keyword n = false ->
  statements blocks (block n ++ rest) = statements (true :: filled blocks) rest.
Proof. intros Hn. unfold block. simpl. rewrite Hn. reflexivity. Qed.

Lemma statements_layout (ns : list string) :
  forallb (fun n => negb (is_keyword n)) ns = true ->
  statements [true] (layout [4] ns ++ [DEDENT; ENDMARKER]) = true.
Proof.
  induction ns as [|n ns IH]; intros H; [done|].
  simpl in H. apply andb_true_iff in H as [Hn H]. apply negb_true_iff in Hn.
  cbn [layout List.map]. rewrite <- !app_assoc.
  change ([DEDENT] ++ block n ++ layout [4] ns ++ [DEDENT; ENDMARKER])
    with (DEDENT :: (block n ++ (layout [4] ns ++ [DEDENT; ENDMARKER]))).
  cbn [statements]. rewrite (statements_block _ _ _ Hn). apply (IH H).
Qed.

Lemma statements_document (ns : list string) :
  forallb (fun n => negb (is_keyword n)) ns = true ->
  statements []
    (preamble_tokens ++ layout [] ns
     ++ List.map (fun _ => DEDENT) (stack_after [] ns) ++ [ENDMARKER]) = true.
Proof.
  intros H. destruct ns as [|n ns]; [reflexivity|].
  simpl in H. apply andb_true_iff in H as [Hn H]. apply negb_true_iff in Hn.
  cbn [layout stack_after List.map]. unfold preamble_tokens.
  change (statements []
            (block n ++ (layout [4] ns ++ [DEDENT; ENDMARKER])) = true).
  rewrite (statements_block _ _ _ Hn). apply (statements_layout _ H).
Qed.

(** The tokens of a document made of the header, the import line and the
    stubs of lexable cases. *)
Lemma tokenize_document (p : Path) (cases : list TestCase) :
  free_of [nul; backslash; quote] (Pathlib.name p) = true ->
  forallb lexable_case cases = true ->
  tokenize (header p +:+ import_line +:+ stubs cases)
  = inr (preamble_tokens ++ layout [] (List.map tc_name cases)
         ++ List.map (fun _ => DEDENT) (stack_after [] (List.map tc_name cases))
         ++ [ENDMARKER]).
Proof.
  intros Hp Hcases. unfold tokenize.
  rewrite <- TestGenProps.append_assoc, lex_app, (lex_preamble _ Hp).
  rewrite (lex_stubs _ _ _ Hcases) by auto.
  unfold finish. cbn [lx_mode depth tokens indents]. unfold closing_tokens.
  cbn [indents]. rewrite rev_app_distr, !rev_involutive.
  by rewrite <- app_assoc.
Qed.

(** Such a document is valid. *)
Lemma document_valid (p : Path) (cases : list TestCase) :
  free_of [nul; backslash; quote] (Pathlib.name p) = true ->
  forallb lexable_case cases = true ->
  forallb (fun n => negb (is_keyword n)) (List.map tc_name cases) = true ->
  check_syntax (header p +:+ import_line +:+ stubs cases) = Valid.
Proof.
  intros Hp Hcases Hkw. unfold check_syntax.
  rewrite (tokenize_document _ _ Hp Hcases).
  by rewrite (statements_document _ Hkw).
Qed.

(** Its function definitions are as many as its cases. *)
Lemma def_count_layout (I : list nat) (ns : list string) :
  forallb (fun n => negb (is_keyword n)) ns = true ->
  def_count (layout I ns) = length ns.
Proof.
  unfold def_count. revert I. induction ns as [|n ns IH]; intros I H; [done|].
  simpl in H. apply andb_true_iff in H as [Hn H].
  cbn [layout]. rewrite !List.filter_app, !length_app, (IH _ H).
  assert (Hd : List.filter is_def (List.map (fun _ => DEDENT) I) = [])
    by (induction I; [done | simpl; auto]).
  rewrite Hd. unfold block. cbn [List.filter is_def].
  assert (Hne : String.eqb n "def" = false).
  { destruct (String.eqb_spec n "def") as [-> | ]; [discriminate Hn | done]. }
  rewrite Hne. simpl. reflexivity.
Qed.

Lemma def_count_document (ns : list string) :
  forallb (fun n => negb (is_keyword n)) ns = true ->
  def_count (preamble_tokens ++ layout [] ns
             ++ List.map (fun _ => DEDENT) (stack_after [] ns) ++ [ENDMARKER])
  = length ns.
Proof.
  intros H. unfold def_count.
  rewrite !List.filter_app, !length_app.
  fold (def_count (layout [] ns)). rewrite (def_count_layout _ _ H).
  assert (Hd : forall I : list nat,
             List.filter is_def (List.map (fun _ => DEDENT) I) = [])
    by (induction I; [done | simpl; auto]).
  rewrite Hd. simpl. lia.
Qed.

(** ** The cases of a generated document are lexable *)

Lemma last_in_or_default {A} (l : list A) (d : A) :
  List.last l d = d \/ In (List.last l d) l.
Proof.
  induction l as [|x l IH]; [by left|].
  destruct l as [|y l]; [right; simpl; auto|].
  destruct IH as [IH | IH].
  - left. exact IH.
  - right. right. exact IH.
Qed.

Lemma read_text_name_no_nul fs p s :
  read_text fs p = Some s -> has_nul (Pathlib.name p) = false.
Proof.
  unfold read_text, resolve.
  destruct (existsb has_nul (parts p)) eqn:E; [discriminate|]. intros _.
  unfold Pathlib.name. destruct (last_in_or_default (parts p) "") as [-> | Hin];
    [reflexivity|].
  destruct (has_nul (List.last (parts p) "")) eqn:Hn; [|done].
  assert (existsb has_nul (parts p) = true)
    by (apply existsb_exists; eauto). congruence.
Qed.

Lemma free_of_nul (s : string) :
  has_nul s = false -> free_of [backslash; quote] s = true ->
  free_of [nul; backslash; quote] s = true.
Proof.
  unfold has_nul, free_of, chars.
  induction (list_ascii_of_string s) as [|c l IH]; [done|].
  cbn [forallb existsb] in *. intros Hn Hf. apply orb_false_iff in Hn as [Hc Hn].
  apply andb_true_iff in Hf as [Hb Hf]. rewrite (IH Hn Hf), andb_true_r.
  rewrite Ascii.eqb_sym in Hc. unfold nul. rewrite Hc. exact Hb.
Qed.

Lemma name_chars_append (a b : string) :
  name_chars (a +:+ b) = name_chars a && name_chars b.
Proof.
  unfold name_chars, chars. by rewrite TestGenProps.chars_append, forallb_app.
Qed.

Lemma derived_cases_lexable edge error f :
  name_chars (name f) = true ->
  forallb lexable_case (derived_cases edge error f) = true.
Proof.
  intros Hf.
  assert (H : forall sfx desc,
             name_chars sfx = true ->
             free_of [nul; backslash; quote] desc = true ->
             lexable_case {| tc_name := "test_" +:+ name f +:+ sfx;
                             tc_description := desc |} = true).
  { intros sfx desc Hs Hd. unfold lexable_case. cbn [tc_name tc_description].
    rewrite Hd, andb_true_r.
    change ("test_" +:+ name f +:+ sfx)
      with (String "t" ("est_" +:+ name f +:+ sfx)).
    cbv iota. rewrite !name_chars_append, Hf, Hs. reflexivity. }
  unfold derived_cases, basic_case, edge_case, error_case.
  destruct edge, error; simpl; rewrite ?H; reflexivity.
Qed.

Lemma derived_cases_keyword_free edge error f :
  forallb (fun n => negb (is_keyword n))
    (List.map tc_name (derived_cases edge error f)) = true.
Proof.
  assert (H : forall sfx, negb (is_keyword ("test_" +:+ name f +:+ sfx)) = true)
    by (intros sfx; rewrite keyword_free; [reflexivity|];
        change ("test_" +:+ name f +:+ sfx)
          with (String "t" (String "e" (String "s" (String "t" (String "_"
                  (name f +:+ sfx))))));
        simpl; by destruct (name f +:+ sfx)).
  unfold derived_cases, basic_case, edge_case, error_case.
  destruct edge, error; simpl; rewrite ?H; reflexivity.
Qed.

Lemma forallb_flat_map {A B} (p : B -> bool) (h : A -> list B) (l : list A) :
  (forall x, In x l -> forallb p (h x) = true) ->
  forallb p (List.flat_map h l) = true.
Proof.
  induction l as [|x l IH]; intros H; [done|].
  cbn [List.flat_map]. rewrite forallb_app, H by (simpl; auto).
  apply IH. intros y Hy. apply H. simpl. auto.
Qed.



(** With both flags true, a document that the tokenizer covers holds three
    function definitions per public function of the source. *)
Lemma three_definitions_per_public_function
    fs ast_parse source_path source tree g :
  read_text fs source_path = Some source ->
  ast_parse source = Some tree ->
  both_flags_true (config g) ->
  plain_file_name source_path = true ->
  (forall f, In f (function_defs tree) -> is_public f = true ->
             name_chars (name f) = true) ->
  exists (doc : string) (toks : list token),
    generate_test_file fs ast_parse source_path g = (Ok doc, g)
    /\ tokenize doc = inr toks
    /\ def_count toks = 3 * length (public_functions (function_defs tree)).
Proof.
  intros Hr Hp (d & Hd & He & Hx) Hplain Hnames.
  pose proof (TestGenProps.generate_test_file_ok _ _ _ _ _ _ _ Hr Hp Hd) as Hgen.
  rewrite (TestGenProps.flag_of_true _ _ He), (TestGenProps.flag_of_true _ _ Hx)
    in Hgen.
  assert (Hpub : forall f, In f (public_functions (discovered tree)) ->
                           name_chars (name f) = true).
  { intros f Hf. apply filter_In in Hf as [Hf Hpublic]. apply Hnames; [|done].
    eapply Permutation_in; [apply TestGenProps.discovered_function_defs | done]. }
  eexists. eexists. split; [exact Hgen|]. split.
  - apply tokenize_document.
    + apply free_of_nul; [by apply (read_text_name_no_nul fs _ source) | done].
    + apply forallb_flat_map. intros f Hf. by apply derived_cases_lexable, Hpub.
  - rewrite def_count_document.
    + rewrite length_map, TestGenProps.length_three_each by reflexivity.
      by rewrite (Permutation_length (TestGenProps.public_discovered tree)).
    + clear. induction (public_functions (discovered tree)) as [|f l IH]; [done|].
      cbn [List.flat_map]. rewrite List.map_app, forallb_app, IH, andb_true_r.
      apply derived_cases_keyword_free.
Qed.


(** ** Through the parser of the generator *)

(** For a parser that agrees with the grammar, the document of such a file
    parses again. *)
Lemma round_trip_through_parser fs ast_parse source_path source tree g d :
  agrees_with_grammar ast_parse ->
  read_text fs source_path = Some source ->
  ast_parse source = Some tree ->
  generation_section (config g) = Some d ->
  plain_file_name source_path = true ->
  (forall f, In f (function_defs tree) -> is_public f = true ->
             name_chars (name f) = true) ->
  exists (doc : string) (tree' : node),
    generate_test_file fs ast_parse source_path g = (Ok doc, g)
    /\ ast_parse doc = Some tree'.
Proof.
  intros Hagree Hr Hp Hd Hplain Hnames.
  pose proof (TestGenProps.generate_test_file_ok _ _ _ _ _ _ _ Hr Hp Hd) as Hgen.
  assert (Hpub : forall f, In f (public_functions (discovered tree)) ->
                           name_chars (name f) = true).
  { intros f Hf. apply filter_In in Hf as [Hf Hpublic]. apply Hnames; [|done].
    eapply Permutation_in; [apply TestGenProps.discovered_function_defs | done]. }
  match type of Hgen with _ = (Ok ?doc, _) =>
    assert (Hv : check_syntax doc = Valid) end.
  { apply document_valid.
    - apply free_of_nul; [by apply (read_text_name_no_nul fs _ source) | done].
    - apply forallb_flat_map. intros f Hf. by apply derived_cases_lexable, Hpub.
    - clear. induction (public_functions (discovered tree)) as [|f l IH]; [done|].
      cbn [List.flat_map]. rewrite List.map_app, forallb_app, IH, andb_true_r.
      apply derived_cases_keyword_free. }
  match type of Hv with check_syntax ?doc = _ =>
    pose proof (Hagree doc) as Hdoc end.
  rewrite Hv in Hdoc. destruct Hdoc as [tree' Htree'].
  eexists. exists tree'. split; [exact Hgen | exact Htree'].
Qed.

(** For such a parser the document of [src\util.py] does not parse. *)
Lemma round_trip_fails_through_parser ast_parse :
  agrees_with_grammar ast_parse ->
  ast_parse "" = Some empty_tree ->
  exists doc : string,
    generate_test_file windows_fs ast_parse (Path_of "src\util.py")
      sample_generator = (Ok doc, sample_generator)
    /\ ast_parse doc = None.
Proof.
  intros Hagree Hempty.
  assert (Hr : read_text windows_fs (Path_of "src\util.py") = Some "")
    by reflexivity.
  exists (header (Path_of "src\util.py") +:+ import_line). split.
  - by apply (TestGenProps.generate_test_file_all_private _ _ _ _ _ _ Hr Hempty).
  - apply (Hagree (header (Path_of "src\util.py") +:+ import_line)).
Qed.

Lemma grammar_parser_agrees :
  agrees_with_grammar grammar_parser /\ grammar_parser "" = Some empty_tree.
Proof.
  split; [|reflexivity]. intros source. unfold grammar_parser.
  destruct (check_syntax source); eauto.
Qed.

(** A name that ends in a backslash leaves the header's string literal
    open to the end of the document. *)
Lemma trailing_backslash_leaves_string_open :
  generate_test_file trailing_backslash_fs sample_parse (Path_of "notes\")
    sample_generator
  = (Ok (quotes3 +:+ "Tests for notes\" +:+ quotes3 +:+ nl +:+ nl
         +:+ "import pytest" +:+ nl +:+ nl), sample_generator)
  /\ tokenize (quotes3 +:+ "Tests for notes\" +:+ quotes3 +:+ nl +:+ nl
               +:+ "import pytest" +:+ nl +:+ nl) = inl Invalid.
Proof. split; reflexivity. Qed.

End SyntaxProps.

(* ===================================================================== *)
(** * Further properties of analyzer.py                                   *)
(* ===================================================================== *)

Module AnalyzerExtras.
Import Pathlib Analyzer Samples ExtraSpec.

(** ** The command line *)



(** X2 (analyzer.py, main, lines 29-33).  An existing regular file gives
    exactly one record, whatever its name: the pattern [*.py] is applied
    to the entries of a directory only.  The record carries the path as
    pathlib prints it. *)
Theorem file_target_is_not_filtered fs (prog arg : string) (rest : list string) :
  is_file fs (Path_of arg) = true ->
  main fs (prog :: arg :: rest)
  = ([Json [ {| file := str (Path_of arg);
                lines_of_code := 0;
                cyclomatic_complexity := 0;
                issues := [] |} ]], Exit 0).
Proof.
  intros H. unfold main.
  by rewrite (AnalyzerProps.analyze_single_file _ _ H).
Qed.

Lemma file_target_is_not_filtered_witness :
  main project_fs ["analyzer.py"; "./proj//README.md"]
  = ([Json [ {| file := str (Path_of "./proj//README.md");
                lines_of_code := 0;
                cyclomatic_complexity := 0;
                issues := [] |} ]], Exit 0).
Proof.
  apply (file_target_is_not_filtered project_fs "analyzer.py"
           "./proj//README.md" []).
  reflexivity.
Defined.

(** ** A directory target *)

(** X3 (analyzer.py, main, lines 34-36).  For a directory the records are
    as many as the entries below it, at any depth, whose name ends in
    [.py]: the regular files and the directories of such a name.  A
    directory without such an entry, an empty one for instance, gives the
    empty list. *)
Theorem directory_record_count fs (target : Path) entries :
  resolve fs target = Some (Dir entries) ->
  length (analyze fs target)
  = spec_matching_files "*.py" (Dir entries) + matching_dirs "*.py" (Dir entries)
  /\ (spec_matching_files "*.py" (Dir entries) = 0 ->
      matching_dirs "*.py" (Dir entries) = 0 ->
      analyze fs target = []).
Proof.
  intros Hr.
  assert (His : is_dir fs target = true) by (unfold is_dir; by rewrite Hr).
  assert (Hlen : length (analyze fs target)
                 = spec_matching_files "*.py" (Dir entries)
                   + matching_dirs "*.py" (Dir entries)).
  { rewrite (AnalyzerProps.analyze_directory _ _
               (AnalyzerProps.is_dir_not_file _ _ His) His), length_fmap.
    apply (AnalyzerProps.rglob_count _ _ _ _ Hr). }
  split; [exact Hlen|]. intros Hf Hd. rewrite Hf, Hd in Hlen.
  by destruct (analyze fs target).
Qed.

Lemma directory_record_count_witness :
  length (analyze project_fs (Path_of "proj"))
  = spec_matching_files "*.py"
      (Dir [("README.md", File "Overture");
            ("app.py", File "def run(): pass");
            ("core", Dir [("engine.py", File "def start(): pass");
                          ("engine.pyc", File "")]);
            ("empty", Dir [])])
    + matching_dirs "*.py"
        (Dir [("README.md", File "Overture");
              ("app.py", File "def run(): pass");
              ("core", Dir [("engine.py", File "def start(): pass");
                            ("engine.pyc", File "")]);
              ("empty", Dir [])])
  /\ (spec_matching_files "*.py"
        (Dir [("README.md", File "Overture");
              ("app.py", File "def run(): pass");
              ("core", Dir [("engine.py", File "def start(): pass");
                            ("engine.pyc", File "")]);
              ("empty", Dir [])]) = 0 ->
      matching_dirs "*.py"
        (Dir [("README.md", File "Overture");
              ("app.py", File "def run(): pass");
              ("core", Dir [("engine.py", File "def start(): pass");
                            ("engine.pyc", File "")]);
              ("empty", Dir [])]) = 0 ->
      analyze project_fs (Path_of "proj") = []).
Proof.
  apply (directory_record_count project_fs (Path_of "proj")). reflexivity.
Defined.

(** Every path of [rglob] ends in a name that matches the pattern. *)
Lemma select_from_last pat prefix n rel :
  In rel (select_from pat prefix n) ->
  exists (middle : list string) (nm : string),
    rel = prefix ++ middle ++ [nm] /\ fnmatch pat nm = true.
Proof.
  revert prefix. induction n as [s | entries IH] using AnalyzerProps.fsnode_nested_ind;
    intros prefix; [intros []|].
  simpl. rewrite in_app_iff. intros [Hhere | Hbelow].
  - unfold matching_names in Hhere. apply list_elem_of_In in Hhere.
    apply list_elem_of_omap in Hhere as ([m c] & _ & Hm). simpl in Hm.
    destruct (fnmatch pat m) eqn:E; [|discriminate]. injection Hm as <-.
    exists [], m. done.
  - apply in_flat_map in Hbelow as ([m c] & Hin & Hrel). simpl in Hrel.
    rewrite Forall_forall in IH.
    destruct (IH (m, c) ltac:(by apply list_elem_of_In) _ Hrel)
      as (middle & nm & -> & Hnm).
    exists (m :: middle), nm. split; [|done]. by rewrite <- app_assoc.
Qed.

Lemma join_last (sep : string) (l : list string) (x : string) :
  exists pre : string, join sep (l ++ [x]) = pre +:+ x.
Proof.
  induction l as [|y l [pre IH]].
  - by exists "".
  - exists (y +:+ sep +:+ pre).
    change (join sep ((y :: l) ++ [x])) with (join sep (y :: (l ++ [x]))).
    assert (Hne : l ++ [x] <> []) by (by destruct l).
    destruct (l ++ [x]) as [|z k] eqn:E; [done|].
    change (join sep (y :: z :: k)) with (y +:+ sep +:+ join sep (z :: k)).
    by rewrite IH, !TestGenProps.append_assoc.
Qed.

Lemma str_last (p : Path) (l : list string) (x : string) :
  parts p = l ++ [x] -> exists pre : string, str p = pre +:+ x.
Proof.
  intros H. unfold str. rewrite H.
  destruct (join_last "/" l x) as [pre Hpre].
  exists (anchor p +:+ pre).
  assert (Hne : l ++ [x] <> []) by (by destruct l).
  destruct (anchor p); destruct (l ++ [x]) eqn:E; try done;
    by rewrite Hpre, ?TestGenProps.append_assoc.
Qed.

(** X4 (analyzer.py, main, lines 34-36).  Every record of a directory
    target names a path that ends in [.py]. *)
Theorem directory_records_end_in_py fs (target : Path) (r : AnalysisRecord) :
  is_dir fs target = true ->
  In r (analyze fs target) ->
  ends_with ".py" (file r).
Proof.
  intros His Hr.
  rewrite (AnalyzerProps.analyze_directory _ _
             (AnalyzerProps.is_dir_not_file _ _ His) His) in Hr.
  apply list_elem_of_In, list_elem_of_fmap in Hr as (q & -> & Hq).
  unfold rglob in Hq. destruct (resolve fs target) as [n|]; [|by apply elem_of_nil in Hq].
  apply list_elem_of_fmap in Hq as (rel & -> & Hrel).
  apply list_elem_of_In, select_from_last in Hrel as (middle & nm & -> & Hnm).
  apply AnalyzerProps.fnmatch_py in Hnm as [stem ->].
  destruct (str_last (joinpath target ([] ++ middle ++ [stem +:+ ".py"]))
              (parts target ++ middle) (stem +:+ ".py")) as [pre Hpre].
  { simpl. by rewrite <- app_assoc. }
  exists (pre +:+ stem). unfold analyze_file. cbn [file].
  by rewrite Hpre, TestGenProps.append_assoc.
Qed.

Lemma directory_records_end_in_py_witness :
  ends_with ".py" (file (analyze_file "proj/core/engine.py")).
Proof.
  apply (directory_records_end_in_py project_fs (Path_of "proj")).
  - reflexivity.
  - simpl. auto.
Defined.

(** X5 (analyzer.py, main, lines 30-36).  The records of a directory
    keep the order in which [rglob] yields the paths, one record per path:
    the loop neither sorts nor drops any. *)
Theorem records_follow_enumeration fs (target : Path) :
  is_dir fs target = true ->
  List.map file (analyze fs target) = List.map str (rglob fs target "*.py").
Proof.
  intros His.
  rewrite (AnalyzerProps.analyze_directory _ _
             (AnalyzerProps.is_dir_not_file _ _ His) His).
  induction (rglob fs target "*.py") as [|q l IH]; [done|].
  simpl. by rewrite <- IH.
Qed.

Lemma records_follow_enumeration_witness :
  List.map file (analyze project_fs (Path_of "proj"))
  = List.map str (rglob project_fs (Path_of "proj") "*.py").
Proof.
  apply (records_follow_enumeration project_fs (Path_of "proj")). reflexivity.
Defined.

(** ** What the analyzer does not look at *)

(** X6 (analyzer.py, main and analyze_file, lines 12-36).  Whatever the
    target, every record collected has zero lines of code, zero cyclomatic
    complexity and no issues. *)
Theorem every_record_is_placeholder fs (target : Path) (r : AnalysisRecord) :
  In r (analyze fs target) -> is_placeholder r.
Proof.
  unfold analyze.
  destruct (is_file fs target); [|destruct (is_dir fs target)].
  - intros [<- | []]. by repeat split.
  - rewrite AnalyzerProps.collect_records. simpl.
    intros H. apply list_elem_of_In, list_elem_of_fmap in H as (q & -> & _).
    by repeat split.
  - intros [].
Qed.

Lemma every_record_is_placeholder_witness :
  is_placeholder (analyze_file "proj/app.py").
Proof.
  apply (every_record_is_placeholder project_fs (Path_of "proj")).
  simpl. auto.
Defined.

Lemma lookup_entry_forget (nm : string) (entries : list (string * fsnode)) :
  lookup_entry nm (List.map (fun e => (fst e, forget_contents (snd e))) entries)
  = forget_contents <$> lookup_entry nm entries.
Proof.
  induction entries as [|[m c] es IH]; [done|]. simpl.
  destruct (String.eqb nm m); [done | exact IH].
Qed.

Lemma walk_parts_forget (ps : list string) (up : list fsnode) (cur : fsnode) :
  walk_parts (forget_contents <$> up) (forget_contents cur) ps
  = forget_contents <$> walk_parts up cur ps.
Proof.
  revert up cur. induction ps as [|p ps IH]; intros up cur; [done|].
  destruct cur as [s|entries]; [done|]. cbn [walk_parts forget_contents].
  destruct (String.eqb p "..").
  - destruct up as [|parent up]; simpl.
    + apply (IH [] (Dir entries)).
    + apply IH.
  - rewrite lookup_entry_forget. destruct (lookup_entry p entries) as [child|]; [|done].
    simpl. apply (IH (Dir entries :: up) child).
Qed.

Lemma resolve_forget fs1 fs2 (p : Path) :
  same_layout fs1 fs2 ->
  forget_contents <$> resolve fs1 p = forget_contents <$> resolve fs2 p.
Proof.
  intros [Hroot Hcwd]. unfold resolve. rewrite Hcwd.
  destruct (existsb has_nul (parts p)); [done|].
  rewrite <- !(walk_parts_forget _ []). simpl. by rewrite Hroot.
Qed.

Lemma select_from_forget pat prefix n :
  select_from pat prefix (forget_contents n) = select_from pat prefix n.
Proof.
  revert prefix. induction n as [s | entries IH] using AnalyzerProps.fsnode_nested_ind;
    intros prefix; [done|].
  cbn [forget_contents select_from]. f_equal.
  - unfold matching_names. clear IH.
    induction entries as [|[m c] es IHes]; [done|].
    cbn [List.map omap list_omap fst snd] in *.
    destruct (fnmatch pat m); by rewrite IHes.
  - induction IH as [|[m c] es Hc _ IHes]; [done|].
    cbn [List.map List.flat_map fst snd] in *.
    by rewrite Hc, IHes.
Qed.

(** X7 (analyzer.py, main, lines 29-38).  The run never reads a file: on
    two file systems that hold the same names in the same places, with
    whatever texts, it prints the same records. *)
Theorem contents_are_never_read fs1 fs2 (argv : list string) :
  same_layout fs1 fs2 ->
  main fs1 argv = main fs2 argv.
Proof.
  intros Hsame.
  assert (Hanalyze : forall target, analyze fs1 target = analyze fs2 target).
  { intros target. pose proof (resolve_forget _ _ target Hsame) as Hr.
    unfold analyze, is_file, is_dir, rglob.
    destruct (resolve fs1 target) as [[s1|e1]|], (resolve fs2 target) as [[s2|e2]|];
      try discriminate Hr; try reflexivity.
    injection Hr as Hr. f_equal. f_equal.
    rewrite <- (select_from_forget _ _ (Dir e1)), <- (select_from_forget _ _ (Dir e2)).
    cbn [forget_contents]. by rewrite Hr. }
  destruct argv as [|prog [|arg rest]]; [done | done |].
  unfold main. by rewrite Hanalyze.
Qed.

Lemma contents_are_never_read_witness :
  main project_fs ["analyzer.py"; "proj"]
  = main project_fs_rewritten ["analyzer.py"; "proj"].
Proof.
  apply (contents_are_never_read project_fs project_fs_rewritten).
  split; reflexivity.
Defined.

End AnalyzerExtras.

(* ===================================================================== *)
(** * Further properties of test-generator.py                             *)
(* ===================================================================== *)

Module TestGenExtras.
Import Pathlib Ast TestGen GenSpec Samples ExtraSpec.

(** ** The command line *)



Lemma generate_test_file_unreadable fs ast_parse source_path g :
  read_text fs source_path = None ->
  generate_test_file fs ast_parse source_path g = (Raise OSError, g).
Proof.
  intros Hr. unfold generate_test_file. rewrite Hr.
  by apply TestGenProps.bind_raise.
Qed.

(** X9 (test-generator.py, generate_test_file and main, lines 54-57 and
    91-93).  A path that names no regular file (nothing, or a directory)
    makes [open] raise; the parser is not reached, nothing is printed, and
    the run ends on the uncaught exception. *)
Theorem unreadable_source_aborts fs ast_parse (prog arg : string)
    (rest : list string) :
  read_text fs (Path_of arg) = None ->
  (forall g, generate_test_file fs ast_parse (Path_of arg) g = (Raise OSError, g))
  /\ main fs ast_parse (prog :: arg :: rest) = ([], Uncaught OSError).
Proof.
  intros Hr.
  assert (H : forall g, generate_test_file fs ast_parse (Path_of arg) g
                        = (Raise OSError, g))
    by (intros g; by apply generate_test_file_unreadable).
  split; [exact H|]. unfold main. by rewrite H.
Qed.

Lemma unreadable_source_aborts_witness :
  (forall g, generate_test_file sample_fs sample_parse (Path_of "src") g
             = (Raise OSError, g))
  /\ main sample_fs sample_parse ["test-generator.py"; "src"]
     = ([], Uncaught OSError).
Proof.
  apply (unreadable_source_aborts sample_fs sample_parse "test-generator.py"
           "src" []).
  reflexivity.
Defined.

(** X10 (test-generator.py, main, lines 82-93).  The configuration of the
    command line is fixed with both flags on: for a file that parses, the
    run prints one document with three stubs per public function
    definition and ends with status 0. *)
Theorem command_line_prints_three_stubs fs ast_parse (prog arg : string)
    (rest : list string) source tree :
  read_text fs (Path_of arg) = Some source ->
  ast_parse source = Some tree ->
  exists cases : list TestCase,
    main fs ast_parse (prog :: arg :: rest)
    = ([header (Path_of arg) +:+ import_line +:+ stubs cases], Exited 0)
    /\ length cases = 3 * length (public_functions (function_defs tree)).
Proof.
  intros Hr Hp. eexists. split.
  - apply (TestGenProps.main_prints_document _ _ _ _ _ _ _ Hr Hp).
  - rewrite TestGenProps.length_three_each by reflexivity.
    by rewrite (Permutation_length (TestGenProps.public_discovered tree)).
Qed.

Lemma command_line_prints_three_stubs_witness :
  exists cases : list TestCase,
    main sample_fs sample_parse ["test-generator.py"; "src/geometry.py"]
    = ([header (Path_of "src/geometry.py") +:+ import_line +:+ stubs cases],
       Exited 0)
    /\ length cases = 3 * length (public_functions (function_defs geometry_tree)).
Proof.
  apply (command_line_prints_three_stubs sample_fs sample_parse
           "test-generator.py" "src/geometry.py" [] geometry_source
           geometry_tree); reflexivity.
Defined.

(** ** The flags *)

Lemma length_derived_cases edge error f :
  length (derived_cases edge error f) = 1 + Nat.b2n edge + Nat.b2n error.
Proof. by destruct edge, error. Qed.

Lemma length_flat_map_const {A B} (h : A -> list B) (l : list A) (k : nat) :
  (forall x, length (h x) = k) -> length (List.flat_map h l) = k * length l.
Proof.
  intros Hh. induction l as [|x l IH]; simpl; [lia|].
  rewrite length_app, Hh, IH. lia.
Qed.

(** X11 (test-generator.py, _generate_test_cases and generate_test_file,
    lines 28-74).  A flag counts as set when its value is truthy, whatever
    its type, and as unset when it is falsy or its key is missing: each
    public function gets one stub, plus one for each flag that is set. *)
Theorem stubs_per_function fs ast_parse source_path source tree g d :
  read_text fs source_path = Some source ->
  ast_parse source = Some tree ->
  generation_section (config g) = Some d ->
  exists cases : list TestCase,
    generate_test_file fs ast_parse source_path g
    = (Ok (header source_path +:+ import_line +:+ stubs cases), g)
    /\ length cases
       = (1 + Nat.b2n (truthy (default PyNone (d !! "include_edge_cases")))
            + Nat.b2n (truthy (default PyNone (d !! "include_error_cases"))))
         * length (public_functions (function_defs tree)).
Proof.
  intros Hr Hp Hd. eexists. split.
  - apply (TestGenProps.generate_test_file_ok _ _ _ _ _ _ _ Hr Hp Hd).
  - rewrite (length_flat_map_const _ _ _ (length_derived_cases _ _)).
    by rewrite (Permutation_length (TestGenProps.public_discovered tree)).
Qed.

Lemma stubs_per_function_witness :
  exists cases : list TestCase,
    generate_test_file sample_fs sample_parse (Path_of "src/geometry.py")
      (__init__ loose_config)
    = (Ok (header (Path_of "src/geometry.py") +:+ import_line +:+ stubs cases),
       __init__ loose_config)
    /\ length cases
       = (1 + Nat.b2n (truthy (default PyNone
                 ((<[ "include_edge_cases" := PyInt 1 ]>
                     {[ "include_error_cases" := PyStr "" ]} : gmap string pyval)
                  !! "include_edge_cases")))
            + Nat.b2n (truthy (default PyNone
                 ((<[ "include_edge_cases" := PyInt 1 ]>
                     {[ "include_error_cases" := PyStr "" ]} : gmap string pyval)
                  !! "include_error_cases"))))
         * length (public_functions (function_defs geometry_tree)).
Proof.
  apply (stubs_per_function sample_fs sample_parse (Path_of "src/geometry.py")
           geometry_source geometry_tree (__init__ loose_config));
    reflexivity.
Defined.

(** X12 (test-generator.py, _generate_test_cases, lines 32-50).  With
    neither flag set (no generation section, missing keys, or falsy
    values) the document holds exactly one stub per public function, the
    basic one, in discovery order. *)
Theorem only_basic_stubs fs ast_parse source_path source tree g d :
  read_text fs source_path = Some source ->
  ast_parse source = Some tree ->
  generation_section (config g) = Some d ->
  truthy (default PyNone (d !! "include_edge_cases")) = false ->
  truthy (default PyNone (d !! "include_error_cases")) = false ->
  generate_test_file fs ast_parse source_path g
  = (Ok (header source_path +:+ import_line
         +:+ stubs (List.map (fun f => basic_case (name f))
                      (public_functions (discovered tree)))), g)
  /\ length (List.map (fun f => basic_case (name f))
               (public_functions (discovered tree)))
     = length (public_functions (function_defs tree)).
Proof.
  intros Hr Hp Hd He Hx. split.
  - rewrite (TestGenProps.generate_test_file_ok _ _ _ _ _ _ _ Hr Hp Hd).
    unfold flag_of. rewrite He, Hx.
    assert (Hmap : forall l : list FunctionDef,
               List.flat_map (derived_cases false false) l
               = List.map (fun f => basic_case (name f)) l).
    { induction l as [|f l IH]; [done|]. simpl. by rewrite IH. }
    by rewrite Hmap.
  - rewrite length_map.
    by rewrite (Permutation_length (TestGenProps.public_discovered tree)).
Qed.

Lemma only_basic_stubs_witness :
  generate_test_file sample_fs sample_parse (Path_of "src/geometry.py")
    (__init__ bare_config)
  = (Ok (header (Path_of "src/geometry.py") +:+ import_line
         +:+ stubs (List.map (fun f => basic_case (name f))
                      (public_functions (discovered geometry_tree)))),
     __init__ bare_config)
  /\ length (List.map (fun f => basic_case (name f))
               (public_functions (discovered geometry_tree)))
     = length (public_functions (function_defs geometry_tree)).
Proof.
  apply (only_basic_stubs sample_fs sample_parse (Path_of "src/geometry.py")
           geometry_source geometry_tree (__init__ bare_config) ∅);
    reflexivity.
Defined.

(** X13 (test-generator.py, _generate_test_cases and generate_test_file,
    lines 39 and 65-67).  Where the configuration is not a mapping, or its
    generation section is not one, the first public function makes the
    lookup raise AttributeError: no document is returned.  A file without
    public functions does not reach the lookup and gets its document. *)
Theorem malformed_config_raises fs ast_parse source_path source tree g :
  read_text fs source_path = Some source ->
  ast_parse source = Some tree ->
  generation_section (config g) = None ->
  (public_functions (function_defs tree) <> [] ->
   generate_test_file fs ast_parse source_path g = (Raise AttributeError, g))
  /\ (public_functions (function_defs tree) = [] ->
      generate_test_file fs ast_parse source_path g
      = (Ok (header source_path +:+ import_line), g)).
Proof.
  intros Hr Hp Hd. split; intros Hpub.
  - apply (TestGenProps.generate_test_file_bad_config _ _ _ _ _ _ Hr Hp Hd).
    intros Hnil. apply Hpub. apply Permutation_nil. rewrite <- Hnil.
    apply TestGenProps.public_discovered.
  - apply (TestGenProps.generate_test_file_all_private _ _ _ _ _ _ Hr Hp).
    apply Permutation_nil. rewrite <- Hpub. symmetry.
    apply TestGenProps.public_discovered.
Qed.

Lemma malformed_config_raises_witness :
  (public_functions (function_defs geometry_tree) <> [] ->
   generate_test_file sample_fs sample_parse (Path_of "src/geometry.py")
     (__init__ broken_config)
   = (Raise AttributeError, __init__ broken_config))
  /\ (public_functions (function_defs geometry_tree) = [] ->
      generate_test_file sample_fs sample_parse (Path_of "src/geometry.py")
        (__init__ broken_config)
      = (Ok (header (Path_of "src/geometry.py") +:+ import_line),
         __init__ broken_config)).
Proof.
  apply (malformed_config_raises sample_fs sample_parse
           (Path_of "src/geometry.py") geometry_source geometry_tree
           (__init__ broken_config)); reflexivity.
Defined.

(** ** The outcome of the two helper methods *)

(** X14 (test-generator.py, _generate_test_cases, lines 28-52).  With a
    generation section that is absent or a mapping the method returns the
    basic case first and after it at most the edge case and the
    error-handling case; otherwise it raises AttributeError.  The
    generator object is handed on as it was. *)
Theorem test_cases_or_attribute_error (f : FunctionDef) (g : TestGenerator) :
  match generation_section (config g) with
  | Some d =>
      exists rest : list TestCase,
        _generate_test_cases f g = (Ok (basic_case (name f) :: rest), g)
        /\ length rest <= 2
        /\ (forall tc, In tc rest ->
              tc = edge_case (name f) \/ tc = error_case (name f))
  | None => _generate_test_cases f g = (Raise AttributeError, g)
  end.
Proof.
  destruct (generation_section (config g)) as [d|] eqn:Hd.
  - rewrite (TestGenProps.generate_test_cases_ok f g d Hd).
    unfold derived_cases.
    destruct (flag_of d "include_edge_cases"), (flag_of d "include_error_cases");
      eexists; (split; [reflexivity|]); simpl; (split; [lia|]); intros tc H;
      intuition.
  - by apply TestGenProps.generate_test_cases_malformed.
Qed.

(** X15 (test-generator.py, analyze_function, lines 19-26).  The metadata
    of a function node carries its name, the names of its positional
    parameters, its line number and the test cases derived for it; where
    the derivation raises, so does [analyze_function]. *)
Theorem analyze_function_metadata (f : FunctionDef) (g : TestGenerator) :
  match generation_section (config g) with
  | Some d =>
      analyze_function f g
      = (Ok {| md_name := name f;
               md_args := args f;
               md_line_number := lineno f;
               md_test_cases :=
                 [basic_case (name f)]
                 ++ (if truthy (default PyNone (d !! "include_edge_cases"))
                     then [edge_case (name f)] else [])
                 ++ (if truthy (default PyNone (d !! "include_error_cases"))
                     then [error_case (name f)] else []) |}, g)
  | None => analyze_function f g = (Raise AttributeError, g)
  end.
Proof.
  destruct (generation_section (config g)) as [d|] eqn:Hd.
  - apply (TestGenProps.analyze_function_ok f g d Hd).
  - unfold analyze_function. apply TestGenProps.bind_raise.
    by apply TestGenProps.generate_test_cases_malformed.
Qed.

(** ** Names *)

Lemma basic_case_derived edge error f :
  In (basic_case (name f)) (derived_cases edge error f).
Proof. unfold derived_cases. simpl. auto. Qed.

Lemma suffix_names_differ (f s1 s2 : string) :
  s1 <> s2 -> "test_" +:+ f +:+ s1 <> "test_" +:+ f +:+ s2.
Proof.
  intros Hne H. apply String.app_inj in H. apply String.app_inj in H. done.
Qed.

Lemma derived_names_NoDup edge error f :
  NoDup (List.map tc_name (derived_cases edge error f)).
Proof.
  unfold derived_cases, basic_case, edge_case, error_case.
  destruct edge, error; simpl;
    repeat (apply NoDup_cons; split;
            [rewrite ?elem_of_cons, elem_of_nil;
             intros H; repeat destruct H as [H | H]; try done;
             by apply suffix_names_differ in H |]);
    apply NoDup_nil_2.
Qed.

Lemma derived_name_in edge error (l : list FunctionDef) (x : string) :
  x ∈ List.map tc_name (List.flat_map (derived_cases edge error) l) ->
  exists f' sfx, f' ∈ l /\ In sfx suffixes /\ x = "test_" +:+ name f' +:+ sfx.
Proof.
  intros H. apply list_elem_of_In, in_map_iff in H as (tc & <- & Htc).
  apply in_flat_map in Htc as (f' & Hf' & Htc).
  apply TestGenProps.derived_case_name in Htc as (sfx & Hsfx & ->).
  exists f', sfx. split; [by apply list_elem_of_In | done].
Qed.

Lemma derived_names_NoDup_iff edge error (l : list FunctionDef) :
  NoDup (List.map tc_name (List.flat_map (derived_cases edge error) l))
  <-> NoDup (List.map name l).
Proof.
  induction l as [|f l IH]; [done|].
  cbn [List.flat_map List.map]. rewrite List.map_app, NoDup_app, NoDup_cons, IH.
  split.
  - intros (_ & Hdisj & Hl). split; [|done]. intros Hin.
    apply list_elem_of_In, in_map_iff in Hin as (f' & Hname & Hf').
    apply (Hdisj (tc_name (basic_case (name f)))).
    + apply list_elem_of_In, in_map, basic_case_derived.
    + apply list_elem_of_In, in_map_iff. exists (basic_case (name f')).
      split; [by rewrite Hname|]. apply in_flat_map. exists f'.
      split; [done | apply basic_case_derived].
  - intros (Hnotin & Hl). split; [apply derived_names_NoDup|]. split; [|done].
    intros x Hx Hx'. apply Hnotin.
    apply list_elem_of_In, in_map_iff in Hx as (tc & <- & Htc).
    apply TestGenProps.derived_case_name in Htc as (sfx & Hsfx & Hn).
    apply derived_name_in in Hx' as (f' & sfx' & Hf' & Hsfx' & Hn').
    rewrite Hn in Hn'. apply TestGenProps.stub_name_origin in Hn'; [|done|done].
    rewrite Hn'. apply list_elem_of_In, in_map, list_elem_of_In, Hf'.
Qed.

(** X16 (test-generator.py, _generate_test_cases and generate_test_file,
    lines 33-50 and 65-72).  The stubs of a document bear pairwise
    distinct names exactly when the public functions discovered bear
    pairwise distinct names: a method and a function of one name, or two
    methods of one name in two classes, give stubs of the same name. *)
Theorem stub_names_distinct fs ast_parse source_path source tree g d :
  read_text fs source_path = Some source ->
  ast_parse source = Some tree ->
  generation_section (config g) = Some d ->
  exists cases : list TestCase,
    generate_test_file fs ast_parse source_path g
    = (Ok (header source_path +:+ import_line +:+ stubs cases), g)
    /\ (NoDup (List.map tc_name cases)
        <-> NoDup (List.map name (public_functions (discovered tree)))).
Proof.
  intros Hr Hp Hd. eexists. split.
  - apply (TestGenProps.generate_test_file_ok _ _ _ _ _ _ _ Hr Hp Hd).
  - apply derived_names_NoDup_iff.
Qed.

Lemma stub_names_distinct_witness :
  exists cases : list TestCase,
    generate_test_file extra_fs extra_parse (Path_of "shapes.py")
      sample_generator
    = (Ok (header (Path_of "shapes.py") +:+ import_line +:+ stubs cases),
       sample_generator)
    /\ (NoDup (List.map tc_name cases)
        <-> NoDup (List.map name (public_functions (discovered shapes_tree)))).
Proof.
  apply (stub_names_distinct extra_fs extra_parse (Path_of "shapes.py")
           shapes_source shapes_tree sample_generator
           (<[ "include_edge_cases" := PyBool true ]>
              {[ "include_error_cases" := PyBool true ]})); reflexivity.
Defined.

(** ** What reaches the document *)

Lemma generate_test_cases_by_name f1 f2 :
  name f1 = name f2 -> _generate_test_cases f1 = _generate_test_cases f2.
Proof. intros H. unfold _generate_test_cases. by rewrite H. Qed.

Lemma bind_cong {A B} (m1 m2 : M A) (k1 k2 : A -> M B) g :
  m1 g = m2 g -> (forall a g', k1 a g' = k2 a g') ->
  bind m1 k1 g = bind m2 k2 g.
Proof.
  intros Hm Hk. unfold bind. rewrite Hm.
  destruct (m2 g) as [[a|e] g']; [apply Hk | done].
Qed.

Lemma stubs_of_function_by_name f1 f2 (acc : string) g :
  name f1 = name f2 ->
  (let* metadata := analyze_function f1 in
   for_each (md_test_cases metadata)
     (fun test_content test_case => ret (emit_test_case test_content test_case))
     acc) g
  = (let* metadata := analyze_function f2 in
     for_each (md_test_cases metadata)
       (fun test_content test_case => ret (emit_test_case test_content test_case))
       acc) g.
Proof.
  intros Hname. unfold analyze_function, bind.
  rewrite (generate_test_cases_by_name _ _ Hname).
  by destruct (_generate_test_cases f2 g) as [[cases | e] g1].
Qed.

Lemma function_loop_by_name (l1 l2 : list FunctionDef) (acc : string) g :
  List.map name l1 = List.map name l2 ->
  function_loop l1 acc g = function_loop l2 acc g.
Proof.
  revert l2 acc g. induction l1 as [|f1 l1 IH]; intros [|f2 l2] acc g H;
    try discriminate; [done|].
  injection H as Hname Hrest. rewrite !TestGenProps.function_loop_cons.
  apply bind_cong; [|intros acc' g'; by apply IH].
  rewrite Hname. destruct (negb (String.prefix "_" (name f2))); [|done].
  by apply stubs_of_function_by_name.
Qed.

(** X17 (test-generator.py, analyze_function and generate_test_file, lines
    19-26 and 62-74).  Of the source file the document shows the file name
    and the names of the functions and nothing else: the parameter lists
    and line numbers that [analyze_function] records never reach it.  Two
    files of one name whose discovered functions bear the same names, in
    the same order, give the same outcome. *)
Theorem document_depends_on_names_only
    fs1 parse1 path1 source1 tree1 fs2 parse2 path2 source2 tree2 g :
  read_text fs1 path1 = Some source1 -> parse1 source1 = Some tree1 ->
  read_text fs2 path2 = Some source2 -> parse2 source2 = Some tree2 ->
  Pathlib.name path1 = Pathlib.name path2 ->
  List.map name (discovered tree1) = List.map name (discovered tree2) ->
  generate_test_file fs1 parse1 path1 g = generate_test_file fs2 parse2 path2 g.
Proof.
  intros Hr1 Hp1 Hr2 Hp2 Hname Hnames.
  rewrite (TestGenProps.generate_test_file_unfold _ _ _ _ _ _ Hr1 Hp1),
    (TestGenProps.generate_test_file_unfold _ _ _ _ _ _ Hr2 Hp2).
  unfold bind, header. rewrite Hname.
  by rewrite (function_loop_by_name _ _ _ _ Hnames).
Qed.

Lemma document_depends_on_names_only_witness :
  generate_test_file sample_fs sample_parse (Path_of "src/geometry.py")
    sample_generator
  = generate_test_file extra_fs extra_parse (Path_of "/lib/geometry.py")
      sample_generator.
Proof.
  apply (document_depends_on_names_only
           sample_fs sample_parse (Path_of "src/geometry.py")
           geometry_source geometry_tree
           extra_fs extra_parse (Path_of "/lib/geometry.py")
           moved_source geometry_tree_moved); reflexivity.
Defined.

(** ** Discovery *)

Lemma walk_queue_cons (n : node) (rest : list node) :
  walk_queue (n :: rest) = n :: walk_queue (rest ++ iter_child_nodes n).
Proof. by simp walk_queue. Qed.

(** The queue of [ast.walk] yields a level of the tree, then the next. *)
Lemma walk_queue_level (level pending : list node) :
  walk_queue (level ++ pending)
  = level ++ walk_queue (pending ++ List.flat_map iter_child_nodes level).
Proof.
  revert pending. induction level as [|n level IH]; intros pending.
  - simpl. by rewrite app_nil_r.
  - change ((n :: level) ++ pending) with (n :: (level ++ pending)).
    rewrite walk_queue_cons, <- app_assoc, IH. simpl.
    by rewrite <- app_assoc.
Qed.

Lemma walk_queue_levels (level : list node) :
  walk_queue level
  = level ++ walk_queue (List.flat_map iter_child_nodes level).
Proof.
  rewrite <- (app_nil_r level) at 1. by rewrite walk_queue_level.
Qed.

(** X18 (test-generator.py, generate_test_file, lines 59-72).  Discovery
    goes level by level: the stubs of the functions defined at module
    level come first, in source order, and the stubs of methods and of
    nested functions follow them. *)
Theorem module_level_functions_first
    fs ast_parse source_path source (body : list node) g d :
  read_text fs source_path = Some source ->
  ast_parse source = Some (Node ast_Module body) ->
  generation_section (config g) = Some d ->
  generate_test_file fs ast_parse source_path g
  = (Ok (header source_path +:+ import_line
         +:+ stubs (List.flat_map
                      (derived_cases (flag_of d "include_edge_cases")
                                     (flag_of d "include_error_cases"))
                      (public_functions (omap as_FunctionDef body)))
         +:+ stubs (List.flat_map
                      (derived_cases (flag_of d "include_edge_cases")
                                     (flag_of d "include_error_cases"))
                      (public_functions
                         (omap as_FunctionDef
                            (walk_queue
                               (List.flat_map iter_child_nodes body)))))), g).
Proof.
  intros Hr Hp Hd.
  rewrite (TestGenProps.generate_test_file_ok _ _ _ _ _ _ _ Hr Hp Hd).
  unfold discovered, walk. rewrite walk_queue_cons. simpl iter_child_nodes.
  rewrite app_nil_l, (walk_queue_levels body).
  change (omap as_FunctionDef (Node ast_Module body :: ?l))
    with (omap as_FunctionDef l).
  rewrite omap_app. unfold public_functions.
  by rewrite List.filter_app, List.flat_map_app, TestGenProps.stubs_app.
Qed.

Lemma module_level_functions_first_witness :
  generate_test_file extra_fs extra_parse (Path_of "shapes.py") sample_generator
  = (Ok (header (Path_of "shapes.py") +:+ import_line
         +:+ stubs (List.flat_map
                      (derived_cases
                         (flag_of (<[ "include_edge_cases" := PyBool true ]>
                                     {[ "include_error_cases" := PyBool true ]})
                            "include_edge_cases")
                         (flag_of (<[ "include_edge_cases" := PyBool true ]>
                                     {[ "include_error_cases" := PyBool true ]})
                            "include_error_cases"))
                      (public_functions
                         (omap as_FunctionDef (iter_child_nodes shapes_tree))))
         +:+ stubs (List.flat_map
                      (derived_cases
                         (flag_of (<[ "include_edge_cases" := PyBool true ]>
                                     {[ "include_error_cases" := PyBool true ]})
                            "include_edge_cases")
                         (flag_of (<[ "include_edge_cases" := PyBool true ]>
                                     {[ "include_error_cases" := PyBool true ]})
                            "include_error_cases"))
                      (public_functions
                         (omap as_FunctionDef
                            (walk_queue
                               (List.flat_map iter_child_nodes
                                  (iter_child_nodes shapes_tree))))))),
     sample_generator).
Proof.
  apply (module_level_functions_first extra_fs extra_parse (Path_of "shapes.py")
           shapes_source (iter_child_nodes shapes_tree)); reflexivity.
Defined.

(** X19 (test-generator.py, generate_test_file, lines 59-72).  Every
    function definition of the tree, at whatever depth (a method of a
    class, a function nested in a function), is discovered exactly once:
    the cases of the document are those of the public function definitions
    of the tree, up to their order. *)
Theorem every_definition_once fs ast_parse source_path source tree g d :
  read_text fs source_path = Some source ->
  ast_parse source = Some tree ->
  generation_section (config g) = Some d ->
  exists cases : list TestCase,
    generate_test_file fs ast_parse source_path g
    = (Ok (header source_path +:+ import_line +:+ stubs cases), g)
    /\ Permutation cases
         (List.flat_map
            (derived_cases (flag_of d "include_edge_cases")
                           (flag_of d "include_error_cases"))
            (public_functions (function_defs tree))).
Proof.
  intros Hr Hp Hd. eexists. split.
  - apply (TestGenProps.generate_test_file_ok _ _ _ _ _ _ _ Hr Hp Hd).
  - apply Permutation_flat_map, TestGenProps.public_discovered.
Qed.

Lemma every_definition_once_witness :
  exists cases : list TestCase,
    generate_test_file extra_fs extra_parse (Path_of "shapes.py")
      sample_generator
    = (Ok (header (Path_of "shapes.py") +:+ import_line +:+ stubs cases),
       sample_generator)
    /\ Permutation cases
         (List.flat_map
            (derived_cases
               (flag_of (<[ "include_edge_cases" := PyBool true ]>
                           {[ "include_error_cases" := PyBool true ]})
                  "include_edge_cases")
               (flag_of (<[ "include_edge_cases" := PyBool true ]>
                           {[ "include_error_cases" := PyBool true ]})
                  "include_error_cases"))
            (public_functions (function_defs shapes_tree))).
Proof.
  apply (every_definition_once extra_fs extra_parse (Path_of "shapes.py")
           shapes_source shapes_tree sample_generator); reflexivity.
Defined.

(** ** The header *)






(** ** Reuse and selection *)

(** X21 (test-generator.py, TestGenerator, lines 13-74).  A generator
    object can serve several files: a run that returns leaves the object
    as it was, so the outcome of the next run is that of a run on the
    fresh object. *)
Theorem runs_are_independent fs ast_parse (path1 path2 : Path) g doc g' :
  generate_test_file fs ast_parse path1 g = (Ok doc, g') ->
  (let* _ := generate_test_file fs ast_parse path1 in
   generate_test_file fs ast_parse path2) g
  = generate_test_file fs ast_parse path2 g.
Proof.
  intros Hgen.
  pose proof (TestGenProps.generate_test_file_preserves fs ast_parse path1 g) as Hg.
  rewrite Hgen in Hg. simpl in Hg. subst g'.
  by rewrite (TestGenProps.bind_ok _ _ _ _ _ Hgen).
Qed.

Lemma runs_are_independent_witness :
  (let* _ := generate_test_file sample_fs sample_parse (Path_of "src/helpers.py") in
   generate_test_file sample_fs sample_parse (Path_of "src/geometry.py"))
    sample_generator
  = generate_test_file sample_fs sample_parse (Path_of "src/geometry.py")
      sample_generator.
Proof.
  apply (runs_are_independent sample_fs sample_parse (Path_of "src/helpers.py")
           (Path_of "src/geometry.py") sample_generator
           (header (Path_of "src/helpers.py") +:+ import_line) sample_generator).
  reflexivity.
Defined.

(** X22 (test-generator.py, generate_test_file, lines 60 and 65-72).  Only
    nodes of class [ast.FunctionDef] are selected: a file whose tree holds
    none (its definitions are coroutines, classes without methods, or
    there are none) gets the header and the import line and no stub,
    whatever the configuration. *)
Theorem no_function_def_no_stub fs ast_parse source_path source tree g :
  read_text fs source_path = Some source ->
  ast_parse source = Some tree ->
  (forall n, In n (subnodes tree) ->
     forall f a l, class_of n <> ast_FunctionDef f a l) ->
  generate_test_file fs ast_parse source_path g
  = (Ok (header source_path +:+ import_line), g).
Proof.
  intros Hr Hp Hnone.
  apply (TestGenProps.generate_test_file_all_private _ _ _ _ _ _ Hr Hp).
  apply Permutation_nil. rewrite TestGenProps.public_discovered.
  unfold function_defs.
  assert (Hno : omap as_FunctionDef (subnodes tree) = []).
  { induction (subnodes tree) as [|n l IH]; [done|].
    cbn [omap list_omap]. unfold as_FunctionDef at 1.
    destruct (class_of n) as [|f a ln| | |] eqn:E;
      try (apply IH; intros; apply Hnone; simpl; auto).
    exfalso. apply (Hnone n ltac:(simpl; auto) f a ln E). }
  by rewrite Hno.
Qed.

Lemma no_function_def_no_stub_witness :
  generate_test_file extra_fs extra_parse (Path_of "fetch.py") sample_generator
  = (Ok (header (Path_of "fetch.py") +:+ import_line), sample_generator).
Proof.
  apply (no_function_def_no_stub extra_fs extra_parse (Path_of "fetch.py")
           coroutine_source coroutine_tree).
  - reflexivity.
  - reflexivity.
  - simpl. intros n [<- | [<- | [<- | [<- | []]]]] f a l; discriminate.
Defined.

End TestGenExtras.
